(** * LAN Network Health API (main.py): model and verified properties

    The service keeps one module-level dictionary, [LATEST], from a device
    id to the last report of that device and the time it was received.
    Four routes read or write it; each of them depends on [require_key].

    Conventions of the model:
    - [json] is the type of the Python values that [json.loads] makes of a
      request body and of the values the handlers build and return: an
      integer is a Python [int], a float is a binary64 number, infinities
      and NaN included;
    - a request body that does not decode as JSON at all is a request of
      its own kind, because FastAPI decodes the body before anything else;
    - validation is lenient, as pydantic is unless told otherwise: a float
      field takes a float, an integer, a boolean or a string that reads as
      a number, an integer field takes an integer, a boolean, a float
      without fractional part or a string that reads as an integer. How a
      string is read is left open ([Lenient]);
    - [time.time()] is an input of each request, a rational number of
      seconds, and ages are computed exactly;
    - a handler is a function of the store that returns its return value
      or the raised error, together with the store it leaves behind. What
      FastAPI makes of a returned value when it encodes the response is
      not part of the model. *)

From Stdlib Require Import QArith Qround Floats.
From stdpp Require Import gmap strings pretty.

#[local] Set Warnings "-register-all,-clear-no-such-hyp".

(** ** Values *)

Inductive json : Type :=
| JNull
| JBool (b : bool)
| JInt (n : Z)
| JFloat (x : float)
| JString (s : string)
| JArray (l : list json)
| JObject (m : gmap string json).

(** ** Numbers *)

(** [a < b] on rationals, as a boolean. *)
Definition Qlt_bool (a b : Q) : bool := negb (Qle_bool b a).

(** Python's [int(x)] on a number: truncation towards zero. *)
Definition int (x : Q) : Z := Z.quot (Qnum x) (Z.pos (Qden x)).

(** [float(n)] for a Python integer: the nearest binary64 number, and an
    error when that is out of range. *)
Definition int_as_float (n : Z) : option float :=
  let x := SF2Prim (binary_normalize prec emax n 0 false) in
  if is_infinity x then None else Some x.

(** An integer that fits a 64-bit float-to-integer conversion. *)
Definition in_int64 (n : Z) : option Z :=
  if (- 2 ^ 63 <? n)%Z && (n <? 2 ^ 63)%Z then Some n else None.

(** The integer a float stands for, when it is finite, has no fractional
    part and lies strictly between -2^63 and 2^63. *)
Definition float_as_int (x : float) : option Z :=
  match Prim2SF x with
  | S754_zero _ => Some 0%Z
  | S754_finite s m e =>
      let n := if s then Z.neg m else Z.pos m in
      if (0 <=? e)%Z then in_int64 (n * 2 ^ e)%Z
      else if (Z.pos m mod 2 ^ (- e) =? 0)%Z then in_int64 (n / 2 ^ (- e))%Z
      else None
  | _ => None
  end.

Definition bool_as_int (b : bool) : Z := if b then 1%Z else 0%Z.

Definition bool_as_float (b : bool) : float := if b then 1%float else 0%float.

(** How the validation library reads a string given for a number. *)
Class Lenient : Type := {
  str_as_float : string → option float;
  str_as_int : string → option Z
}.

(** ** The store *)

(** The value kept for a device: [{"data": data, "ts": time.time()}]. *)
Record entry : Type := Entry {
  data : gmap string json;
  ts : Q
}.

(** [LATEST: Dict[str, Dict[str, Any]]]. *)
Abbreviation LATEST := (gmap string entry).

(** ** Failures *)

(** What ends a request early: an [HTTPException] raised by the code, or
    the request-validation error FastAPI raises itself (answered with
    status 422) when the body does not decode, or a declared parameter or
    the body does not validate. *)
Inductive failure : Type :=
| HTTPException (status_code : Z) (detail : string)
| RequestValidationError.

(** ** Handlers: state and exceptions *)

Definition handler (A : Type) : Type := LATEST → (failure + A) * LATEST.

#[global] Instance handler_ret : MRet handler :=
  λ A (x : A) st, (inr x, st).

#[global] Instance handler_bind : MBind handler :=
  λ A B (f : A → handler B) (c : handler A) st,
    match c st with
    | (inr x, st') => f x st'
    | (inl e, st') => (inl e, st')
    end.

Definition raise {A : Type} (e : failure) : handler A :=
  λ st, (inl e, st).

(** [LATEST.get(key)] *)
Definition LATEST_get (key : string) : handler (option entry) :=
  λ st, (inr (st !! key), st).

(** [LATEST[key] = item] *)
Definition LATEST_setitem (key : string) (item : entry) : handler unit :=
  λ st, (inr (), <[key := item]> st).

(** [LATEST.items()] *)
Definition LATEST_items : handler LATEST :=
  λ st, (inr st, st).

(** The HTTP status that goes with an outcome of a handler: the status of
    the error, and 200 for a returned value. *)
Definition http_status (r : failure + json) : Z :=
  match r with
  | inr _ => 200
  | inl (HTTPException code _) => code
  | inl RequestValidationError => 422
  end.

(** ** The payload schema *)

(** [class HealthPayload(BaseModel)]: the validated model instance. *)
Record HealthPayload : Type := {
  device_id : string;
  cpu : option float;
  ram : option float;
  temperature : option float;
  status : option string;
  health_score : option Z;
  extra : option (gmap string json)
}.

(** Field types: what a validator accepts, and the typed value it makes
    of it. *)
Definition str_type (v : json) : option string :=
  match v with JString s => Some s | _ => None end.

Definition float_type `{Lenient} (v : json) : option float :=
  match v with
  | JFloat x => Some x
  | JInt n => int_as_float n
  | JBool b => Some (bool_as_float b)
  | JString s => str_as_float s
  | _ => None
  end.

Definition int_type `{Lenient} (v : json) : option Z :=
  match v with
  | JInt n => Some n
  | JBool b => Some (bool_as_int b)
  | JFloat x => float_as_int x
  | JString s => str_as_int s
  | _ => None
  end.

Definition dict_type (v : json) : option (gmap string json) :=
  match v with JObject m => Some m | _ => None end.

(** Field constraints. *)
Definition min_length (n : nat) (s : string) : option string :=
  if decide (n ≤ String.length s) then Some s else None.

Definition ge_le (lo hi : float) (x : float) : option float :=
  if PrimFloat.leb lo x && PrimFloat.leb x hi then Some x else None.

Definition ge_le_int (lo hi : Z) (z : Z) : option Z :=
  if bool_decide (lo ≤ z)%Z && bool_decide (z ≤ hi)%Z then Some z else None.

(** A required field, [Field(...)]: the key must be there. The outer
    [option] is the outcome of validation. *)
Definition required {T : Type} (inner : json → option T)
    (o : option json) : option T :=
  match o with
  | None => None
  | Some v => inner v
  end.

(** A field of type [Optional[T]] with a default: a missing key takes the
    default (which is not validated), [null] is [None], anything else goes
    through the validator of [T]. *)
Definition optional {T : Type} (inner : json → option T)
    (default : option T) (o : option json) : option (option T) :=
  match o with
  | None => Some default
  | Some JNull => Some None
  | Some v => Some <$> inner v
  end.

(** Validation of a request body against [HealthPayload]. Keys that are
    not fields of the model are ignored. *)
Definition HealthPayload_validate `{Lenient} (body : json)
    : option HealthPayload :=
  match body with
  | JObject m =>
      device_id ←
        required (λ v, str_type v ≫= min_length 1) (m !! "device_id");
      cpu ← optional (λ v, float_type v ≫= ge_le 0 100) None (m !! "cpu");
      ram ← optional (λ v, float_type v ≫= ge_le 0 100) None (m !! "ram");
      temperature ← optional float_type None (m !! "temperature");
      status ← optional str_type (Some "OK") (m !! "status");
      health_score ←
        optional (λ v, int_type v ≫= ge_le_int 0 100) None
          (m !! "health_score");
      extra ← optional dict_type None (m !! "extra");
      Some {| device_id := device_id; cpu := cpu; ram := ram;
              temperature := temperature; status := status;
              health_score := health_score; extra := extra |}
  | _ => None
  end.

#[global] Arguments HealthPayload_validate : simpl never.

(** [d[k] = v] when the field holds a value; nothing for [None]. *)
Definition dump_field (k : string) (o : option json)
    (d : gmap string json) : gmap string json :=
  match o with
  | Some v => <[k := v]> d
  | None => d
  end.

(** [payload.model_dump(exclude_none=True)] *)
Definition model_dump_exclude_none (payload : HealthPayload)
    : gmap string json :=
  dump_field "extra" (JObject <$> extra payload)
    (dump_field "health_score" (JInt <$> health_score payload)
    (dump_field "status" (JString <$> status payload)
    (dump_field "temperature" (JFloat <$> temperature payload)
    (dump_field "ram" (JFloat <$> ram payload)
    (dump_field "cpu" (JFloat <$> cpu payload)
    (dump_field "device_id" (Some (JString (device_id payload))) ∅)))))).

(** [d.setdefault(k, v)] *)
Definition setdefault (k : string) (v : json)
    (d : gmap string json) : gmap string json :=
  match d !! k with
  | Some _ => d
  | None => <[k := v]> d
  end.

(** ** Requests *)

(** The routes [main.py] declares. The body of a [POST /device/report] is
    what [json.loads] makes of it, and [POST_device_report_undecodable]
    stands for a request whose body FastAPI fails to decode. (A body that
    FastAPI does not decode, because it is empty or declared with another
    content type, reaches validation and fails it, as a body that is not
    an object does.) *)
Inductive route : Type :=
| GET_root
| POST_device_report (body : json)
| POST_device_report_undecodable
| GET_device_health (device_id : option string)
| GET_devices_health.

(** A request: the [x-api-key] header, if it was sent, and the route with
    its parameters. *)
Record request : Type := {
  x_api_key : option string;
  target : route
}.

Section Service.

Context `{Lenient}.

(** [MAKE_API_KEY] and [STALE_SECONDS] are read from the environment
    when the module is loaded. *)
Variable MAKE_API_KEY : string.
Variable STALE_SECONDS : Z.

(** [if x_api_key != MAKE_API_KEY: raise HTTPException(401, ...)] *)
Definition require_key (x_api_key : string) : handler unit :=
  if decide (x_api_key ≠ MAKE_API_KEY)
  then raise (HTTPException 401 "Invalid API key")
  else mret ().

(** [@app.get("/")] *)
Definition root : handler json :=
  mret (JObject {[ "status" := JString "API is running" ]}).

(** [@app.post("/device/report")]; [now] is what [time.time()] returns. *)
Definition report_health (now : Q) (payload : HealthPayload)
    : handler json :=
  let data := model_dump_exclude_none payload in
  let data := setdefault "status" (JString "UNKNOWN") data in
  LATEST_setitem (device_id payload) {| data := data; ts := now |} ;;
  mret (JObject (<[ "ok" := JBool true ]>
                 {[ "stored_for" := JString (device_id payload) ]})).

(** [@app.get("/device/health")]. An item of the store is a dictionary
    of two keys, so [not item] holds only for the [None] that
    [LATEST.get] returns for a missing key. The detail of the 503 is
    [f"Device data is stale ({int(age)}s old)"]. *)
Definition get_health (now : Q) (device_id : string) : handler json :=
  item ← LATEST_get device_id;
  match item with
  | None => raise (HTTPException 404 "No data yet for this device_id")
  | Some item =>
      let age := (now - ts item)%Q in
      if Qlt_bool (inject_Z STALE_SECONDS) age
      then raise (HTTPException 503
                    ("Device data is stale ("
                       +:+ pretty (int age) +:+ "s old)"))
      else mret (JObject (data item))
  end.

(** [@app.get("/devices/health")]:
    [{k: v["data"] for k, v in LATEST.items()}] *)
Definition all_health : handler json :=
  items ← LATEST_items;
  mret (JObject ((λ v, JObject (data v)) <$> items)).

(** What FastAPI does with a request to one of the routes. The body of a
    [POST] is decoded first, and a body that does not decode is a
    validation error whatever the key. Then comes the dependency: its
    header parameter is declared with [Header(...)], so a request that
    lacks the header is a validation error and [require_key] is not
    called; otherwise [require_key] runs, and what it raises ends the
    request. Only then are the route's own parameters and body
    validated, and the endpoint is called if they are valid. *)
Definition serve (now : Q) (r : request) : handler json :=
  match target r with
  | POST_device_report_undecodable => raise RequestValidationError
  | _ =>
      match x_api_key r with
      | None => raise RequestValidationError
      | Some key =>
          require_key key ;;
          match target r with
          | GET_root => root
          | POST_device_report body =>
              match HealthPayload_validate body with
              | None => raise RequestValidationError
              | Some payload => report_health now payload
              end
          | POST_device_report_undecodable => raise RequestValidationError
          | GET_device_health None => raise RequestValidationError
          | GET_device_health (Some device_id) => get_health now device_id
          | GET_devices_health => all_health
          end
      end
  end.

End Service.

(** The configuration [main.py] falls back to when the environment sets
    neither variable. *)
Definition default_MAKE_API_KEY : string := "make_network_health".
Definition default_STALE_SECONDS : Z := 300.

(** ** Vocabulary of the properties *)

(** The record [report_health] keeps for a validated payload. *)
Definition stored_record (payload : HealthPayload) : gmap string json :=
  setdefault "status" (JString "UNKNOWN") (model_dump_exclude_none payload).

(** The names of the fields of [HealthPayload]. *)
Definition field_names : list string :=
  ["device_id"; "cpu"; "ram"; "temperature"; "status"; "health_score";
   "extra"].

(** What the caller supplied under a key of the body: a key that is
    missing and a key sent as [null] both supply nothing. *)
Definition supplied (m : gmap string json) (k : string) : option json :=
  match m !! k with
  | Some JNull => None
  | o => o
  end.

(** The validated form of a value supplied for a field, computed with the
    validator and the constraints of the field. *)
Definition validated `{Lenient} (k : string) (v : json) : option json :=
  if decide (k = "device_id") then
    JString <$> (str_type v ≫= min_length 1)
  else if decide (k = "cpu" ∨ k = "ram") then
    JFloat <$> (float_type v ≫= ge_le 0 100)
  else if decide (k = "temperature") then JFloat <$> float_type v
  else if decide (k = "status") then JString <$> str_type v
  else if decide (k = "health_score") then
    JInt <$> (int_type v ≫= ge_le_int 0 100)
  else if decide (k = "extra") then JObject <$> dict_type v
  else None.

(** Lenient reading, case by case: a float field takes a float as it is,
    an integer through [float], a boolean as 1.0 or 0.0, and a string as
    the library reads it. *)
Inductive reads_as_float `{Lenient} : json → float → Prop :=
| float_is_float x : reads_as_float (JFloat x) x
| int_reads_as_float n x :
    int_as_float n = Some x → reads_as_float (JInt n) x
| bool_reads_as_float b : reads_as_float (JBool b) (bool_as_float b)
| str_reads_as_float s x :
    str_as_float s = Some x → reads_as_float (JString s) x.

(** An integer field takes an integer as it is, a boolean as 1 or 0, a
    float that stands for an integer, and a string as the library reads
    it. *)
Inductive reads_as_int `{Lenient} : json → Z → Prop :=
| int_is_int n : reads_as_int (JInt n) n
| bool_reads_as_int b : reads_as_int (JBool b) (bool_as_int b)
| float_reads_as_int x n :
    float_as_int x = Some n → reads_as_int (JFloat x) n
| str_reads_as_int s n :
    str_as_int s = Some n → reads_as_int (JString s) n.

(** [validates_to k v x]: the value [v], supplied for the field [k], is
    valid for that field, and [x] is its validated form. *)
Inductive validates_to `{Lenient} : string → json → json → Prop :=
| device_id_validates s :
    s ≠ "" → validates_to "device_id" (JString s) (JString s)
| cpu_validates v x :
    reads_as_float v x → PrimFloat.leb 0 x = true →
    PrimFloat.leb x 100 = true → validates_to "cpu" v (JFloat x)
| ram_validates v x :
    reads_as_float v x → PrimFloat.leb 0 x = true →
    PrimFloat.leb x 100 = true → validates_to "ram" v (JFloat x)
| temperature_validates v x :
    reads_as_float v x → validates_to "temperature" v (JFloat x)
| status_validates s : validates_to "status" (JString s) (JString s)
| health_score_validates v n :
    reads_as_int v n → (0 ≤ n ≤ 100)%Z →
    validates_to "health_score" v (JInt n)
| extra_validates o : validates_to "extra" (JObject o) (JObject o).

(** A value has the type of the field it is supplied for: a string for
    [device_id] and [status], a float for [cpu], [ram] and [temperature],
    an integer for [health_score], an object for [extra]. *)
Definition has_field_type (k : string) (v : json) : bool :=
  match v with
  | JString _ => bool_decide (k = "device_id" ∨ k = "status")
  | JFloat _ => bool_decide (k = "cpu" ∨ k = "ram" ∨ k = "temperature")
  | JInt _ => bool_decide (k = "health_score")
  | JObject _ => bool_decide (k = "extra")
  | _ => false
  end.

(** A percentage: a float between 0 and 100, bounds included. *)
Definition percent (x : float) : Prop :=
  PrimFloat.leb 0 x = true ∧ PrimFloat.leb x 100 = true.

(** The acknowledgment of a stored report. *)
Definition ack (device_id : string) : json :=
  JObject (<[ "ok" := JBool true ]> {[ "stored_for" := JString device_id ]}).

(** The optional fields that have no schema default. *)
Definition plain_optional_names : list string :=
  ["cpu"; "ram"; "temperature"; "health_score"; "extra"].

(** The input constraints: the body is an object, [device_id] is a
    non-empty string, and every other field, where one is supplied, is
    read as a value of its type that lies in its range. *)
Definition valid_payload `{Lenient} (body : json) : Prop :=
  ∃ m, body = JObject m ∧
    (∃ s, m !! "device_id" = Some (JString s) ∧ s ≠ "") ∧
    (∀ v, supplied m "cpu" = Some v →
       ∃ x, reads_as_float v x ∧ percent x) ∧
    (∀ v, supplied m "ram" = Some v →
       ∃ x, reads_as_float v x ∧ percent x) ∧
    (∀ v, supplied m "temperature" = Some v → ∃ x, reads_as_float v x) ∧
    (∀ v, supplied m "status" = Some v → ∃ s, v = JString s) ∧
    (∀ v, supplied m "health_score" = Some v →
       ∃ n, reads_as_int v n ∧ (0 ≤ n ≤ 100)%Z) ∧
    (∀ v, supplied m "extra" = Some v → ∃ o, v = JObject o).

(** ** Worked requests *)

(** A reading of strings for the worked requests: a string of decimal
    digits is read as the number it writes, as the validation library
    reads it, and nothing else is read. *)
Fixpoint digits_value (acc : Z) (s : string) : option Z :=
  match s with
  | EmptyString => Some acc
  | String c s' =>
      let d := Z.of_N (Ascii.N_of_ascii c) in
      if bool_decide (48 ≤ d ≤ 57)%Z
      then digits_value (10 * acc + (d - 48)) s'
      else None
  end.

Definition digits (s : string) : option Z :=
  match s with
  | EmptyString => None
  | _ => digits_value 0 s
  end.

Definition digit_strings : Lenient :=
  {| str_as_float := λ s, digits s ≫= int_as_float;
     str_as_int := digits |}.

Definition with_key (key : string) (t : route) : request :=
  {| x_api_key := Some key; target := t |}.

(** The report [{"device_id":"rpi-1","cpu":42.5,"ram":60}] and the record
    kept for it: the integer 60 is stored as the float 60.0. *)
Definition rpi1_report : gmap string json :=
  <[ "device_id" := JString "rpi-1" ]>
    (<[ "cpu" := JFloat 42.5 ]> {[ "ram" := JInt 60 ]}).

Definition rpi1_record : gmap string json :=
  <[ "device_id" := JString "rpi-1" ]>
    (<[ "cpu" := JFloat 42.5 ]>
    (<[ "ram" := JFloat 60 ]> {[ "status" := JString "OK" ]})).

(** A later report of the same device,
    [{"device_id":"rpi-1","status":null,"health_score":90}], and its
    record. *)
Definition rpi1_second_report : gmap string json :=
  <[ "device_id" := JString "rpi-1" ]>
    (<[ "status" := JNull ]> {[ "health_score" := JInt 90 ]}).

Definition rpi1_second_record : gmap string json :=
  <[ "device_id" := JString "rpi-1" ]>
    (<[ "status" := JString "UNKNOWN" ]> {[ "health_score" := JInt 90 ]}).

(** A report that is out of range: [{"device_id":"rpi-1","cpu":150}]. *)
Definition overloaded_report : gmap string json :=
  <[ "device_id" := JString "rpi-1" ]> {[ "cpu" := JInt 150 ]}.

(** A report whose numbers are not written as numbers,
    [{"device_id":"rpi-1","cpu":true,"health_score":"90"}], and the
    record kept for it. *)
Definition lenient_report : gmap string json :=
  <[ "device_id" := JString "rpi-1" ]>
    (<[ "cpu" := JBool true ]> {[ "health_score" := JString "90" ]}).

Definition lenient_record : gmap string json :=
  <[ "device_id" := JString "rpi-1" ]>
    (<[ "cpu" := JFloat 1 ]>
    (<[ "health_score" := JInt 90 ]> {[ "status" := JString "OK" ]})).

(** A store that holds [rpi-1], received at time 0, and [rpi-2], received
    at time 400. *)
Definition two_devices : LATEST :=
  <[ "rpi-1" := {| data := rpi1_record; ts := 0 |} ]>
    {[ "rpi-2" := {| data := rpi1_second_record; ts := 400 |} ]}.

(** A report of a second device, [{"device_id":"rpi-2","ram":10}], and
    its record. *)
Definition rpi2_report : gmap string json :=
  <[ "device_id" := JString "rpi-2" ]> {[ "ram" := JInt 10 ]}.

Definition rpi2_record : gmap string json :=
  <[ "device_id" := JString "rpi-2" ]>
    (<[ "ram" := JFloat 10 ]> {[ "status" := JString "OK" ]}).

(** Requests that carry the default key. *)
Definition post_report (m : gmap string json) : request :=
  with_key default_MAKE_API_KEY (POST_device_report (JObject m)).


(** What follows the second report of [rpi-1] in the history below. *)
Definition later_requests : list (Q * request) :=
  [ (7%Q, with_key default_MAKE_API_KEY GET_devices_health);
    (8%Q, post_report rpi2_report) ].

(** Two reports of [rpi-1], at times 0 and 5, then a query and a report
    of [rpi-2]. *)
Definition history : list (Q * request) :=
  [ (0%Q, post_report rpi1_report) ]
    ++ (5%Q, post_report rpi1_second_report) :: later_requests.

(** ** Histories of requests *)

Section History.

Context `{Lenient}.

Variable MAKE_API_KEY : string.
Variable STALE_SECONDS : Z.

(** The store after a list of requests, served one after the other, each
    with the reading of the clock at the time it is served. *)
Fixpoint serve_all (reqs : list (Q * request)) (st : LATEST) : LATEST :=
  match reqs with
  | [] => st
  | (now, r) :: rest =>
      serve_all rest (serve MAKE_API_KEY STALE_SECONDS now r st).2
  end.

(** The entry a request writes, and the device id it writes it for: a
    report that carries the right key and validates; no other request
    writes. *)
Definition report_of (now : Q) (r : request) : option (string * entry) :=
  match x_api_key r, target r with
  | Some key, POST_device_report body =>
      if decide (key = MAKE_API_KEY)
      then payload ← HealthPayload_validate body;
           Some (device_id payload,
                 {| data := stored_record payload; ts := now |})
      else None
  | _, _ => None
  end.

End History.

(** ** Well-formed records *)

(** What holds of a record kept under the device id [id]: it names that
    id, which is not empty, it has a string as [status], its keys are
    fields of the schema, none of them maps to [null], and [cpu], [ram] and
    [health_score], where present, lie in their ranges. *)
Definition record_ok (id : string) (d : gmap string json) : Prop :=
  d !! "device_id" = Some (JString id) ∧ id ≠ "" ∧
  (∃ s, d !! "status" = Some (JString s)) ∧
  (∀ k v, d !! k = Some v → k ∈ field_names ∧ v ≠ JNull) ∧
  (∀ v, d !! "cpu" = Some v → ∃ x, v = JFloat x ∧ percent x) ∧
  (∀ v, d !! "ram" = Some v → ∃ x, v = JFloat x ∧ percent x) ∧
  (∀ v, d !! "health_score" = Some v →
     ∃ n, v = JInt n ∧ (0 ≤ n ≤ 100)%Z).

Definition store_ok (st : LATEST) : Prop :=
  ∀ id item, st !! id = Some item → record_ok id (data item).

(** * Properties *)

Section Properties.

Context `{Lenient}.

(** ** Rational comparisons *)

Lemma Qlt_bool_iff (a b : Q) : Qlt_bool a b = true ↔ (a < b)%Q.
Proof.
  unfold Qlt_bool. rewrite negb_true_iff.
  destruct (Qle_bool b a) eqn:E.
  - apply Qle_bool_iff in E. split; [done|].
    intros Hlt. by apply Qlt_not_le in Hlt.
  - split; [intros _|done].
    apply Qnot_le_lt. intros Hle. apply Qle_bool_iff in Hle. congruence.
Qed.

Lemma Qlt_bool_false (a b : Q) : Qlt_bool a b = false ↔ (b <= a)%Q.
Proof.
  unfold Qlt_bool. rewrite negb_false_iff. apply Qle_bool_iff.
Qed.

(** [int] rounds towards zero: down for a number that is not negative, up
    for a negative one. *)
Lemma int_truncates (x : Q) :
  int x = if Qle_bool 0 x then Qfloor x else Qceiling x.
Proof.
  destruct x as [n d]. unfold int, Qceiling, Qle_bool, Qfloor; simpl.
  rewrite Z.mul_1_r. change (0 * Z.pos d)%Z with 0%Z.
  destruct (Z.leb_spec 0 n) as [Hn|Hn].
  - by apply Z.quot_div_nonneg.
  - rewrite <- (Z.opp_involutive n) at 1. rewrite Z.quot_opp_l by done.
    f_equal. apply Z.quot_div_nonneg; lia.
Qed.

(** ** What the field validators return *)

Lemma str_type_Some v s : str_type v = Some s → v = JString s.
Proof. destruct v; simpl; congruence. Qed.

Lemma dict_type_Some v m : dict_type v = Some m → v = JObject m.
Proof. destruct v; simpl; congruence. Qed.

Lemma ge_le_Some lo hi x r :
  ge_le lo hi x = Some r →
  r = x ∧ PrimFloat.leb lo x = true ∧ PrimFloat.leb x hi = true.
Proof.
  unfold ge_le.
  destruct (PrimFloat.leb lo x), (PrimFloat.leb x hi); simpl; try done.
  by intros [= <-].
Qed.

Lemma ge_le_int_Some lo hi z r :
  ge_le_int lo hi z = Some r → r = z ∧ (lo ≤ z ≤ hi)%Z.
Proof.
  unfold ge_le_int.
  destruct (bool_decide (lo ≤ z)%Z) eqn:E1, (bool_decide (z ≤ hi)%Z) eqn:E2;
    simpl; try done.
  apply bool_decide_eq_true in E1, E2. by intros [= <-].
Qed.

Lemma percent_Some v x :
  float_type v ≫= ge_le 0 100 = Some x ↔ float_type v = Some x ∧ percent x.
Proof.
  unfold percent. destruct (float_type v) as [y|]; simpl.
  - split.
    + intros (-> & ? & ?)%ge_le_Some. done.
    + intros ([= ->] & H0 & H100). unfold ge_le. by rewrite H0, H100.
  - split; [done|]. by intros [? _].
Qed.

Lemma score_Some v n :
  int_type v ≫= ge_le_int 0 100 = Some n ↔
  int_type v = Some n ∧ (0 ≤ n ≤ 100)%Z.
Proof.
  destruct (int_type v) as [z|]; simpl.
  - split.
    + intros [-> ?]%ge_le_int_Some. done.
    + intros ([= ->] & H0 & H100). unfold ge_le_int.
      by rewrite !bool_decide_eq_true_2.
  - split; [done|]. by intros [? _].
Qed.

Lemma name_Some v s :
  str_type v ≫= min_length 1 = Some s ↔ v = JString s ∧ s ≠ "".
Proof.
  split.
  - destruct (str_type v) as [s'|] eqn:E; simpl; [|done].
    unfold min_length. case_decide as Hlen; [|done]. intros [= <-].
    split; [by apply str_type_Some|]. intros ->. simpl in Hlen. lia.
  - intros [-> Hne]. simpl. unfold min_length.
    rewrite decide_True; [done|]. destruct s; [done|simpl; lia].
Qed.

Lemma float_type_iff v x : float_type v = Some x ↔ reads_as_float v x.
Proof.
  split.
  - destruct v; simpl; try done.
    + intros [= <-]. constructor.
    + intros Hx. by constructor.
    + intros [= <-]. constructor.
    + intros Hx. by constructor.
  - by intros []; simpl.
Qed.

Lemma int_type_iff v n : int_type v = Some n ↔ reads_as_int v n.
Proof.
  split.
  - destruct v; simpl; try done.
    + intros [= <-]. constructor.
    + intros [= <-]. constructor.
    + intros Hx. by constructor.
    + intros Hx. by constructor.
  - by intros []; simpl.
Qed.

(** An optional field that validates holds the validated form of what was
    supplied, or its default when the key is missing. *)
Lemma optional_Some {T : Type} (inner : json → option T) (emb : T → json)
    (default : option T) (m : gmap string json) (k : string) (r : option T) :
  optional inner default (m !! k) = Some r →
  emb <$> r = match m !! k with
              | None => emb <$> default
              | _ => supplied m k ≫= λ v, emb <$> inner v
              end.
Proof.
  unfold supplied, optional.
  destruct (m !! k) as [v|]; [|by intros [= <-]].
  destruct v; try (by intros [= <-]);
    (destruct (inner _) as [t|] eqn:E; simpl; [|done]);
    intros [= <-]; simpl; by rewrite E.
Qed.

Lemma optional_Some_no_default {T : Type} (inner : json → option T)
    (emb : T → json) (m : gmap string json) (k : string) (r : option T) :
  optional inner None (m !! k) = Some r →
  emb <$> r = supplied m k ≫= λ v, emb <$> inner v.
Proof.
  intros Hr. rewrite (optional_Some _ _ _ _ _ _ Hr).
  unfold supplied. by destruct (m !! k).
Qed.

Lemma optional_Some_supplied {T : Type} (inner : json → option T)
    (default : option T) (m : gmap string json) (k : string) (r : option T)
    (v : json) :
  optional inner default (m !! k) = Some r →
  supplied m k = Some v → ∃ t, inner v = Some t ∧ r = Some t.
Proof.
  unfold supplied, optional. destruct (m !! k) as [w|]; [|done].
  destruct w; try done; intros Hr [= <-];
    (destruct (inner _) as [t|]; [|done]);
    simpl in Hr; injection Hr as <-; by eexists.
Qed.

Lemma optional_is_Some {T : Type} (inner : json → option T)
    (default : option T) (m : gmap string json) (k : string) :
  (∀ v, supplied m k = Some v → is_Some (inner v)) →
  is_Some (optional inner default (m !! k)).
Proof.
  unfold supplied, optional. intros Hin.
  destruct (m !! k) as [w|]; [|done].
  destruct w; try done;
    (destruct (Hin _ eq_refl) as [t ->]; by eexists).
Qed.

Lemma supplied_Some m k v :
  supplied m k = Some v → m !! k = Some v ∧ v ≠ JNull.
Proof. unfold supplied. by destruct (m !! k) as [[]|]; intros [= <-]. Qed.

Lemma supplied_intro (m : gmap string json) k v :
  m !! k = Some v → v ≠ JNull → supplied m k = Some v.
Proof. unfold supplied. intros -> Hv. by destruct v. Qed.

(** ** What a validated payload holds *)

Lemma HealthPayload_validate_object body p :
  HealthPayload_validate body = Some p → ∃ m, body = JObject m.
Proof. destruct body; try done. eauto. Qed.

Lemma HealthPayload_validate_fields m p :
  HealthPayload_validate (JObject m) = Some p →
  required (λ v, str_type v ≫= min_length 1) (m !! "device_id")
    = Some (device_id p) ∧
  optional (λ v, float_type v ≫= ge_le 0 100) None (m !! "cpu")
    = Some (cpu p) ∧
  optional (λ v, float_type v ≫= ge_le 0 100) None (m !! "ram")
    = Some (ram p) ∧
  optional float_type None (m !! "temperature") = Some (temperature p) ∧
  optional str_type (Some "OK") (m !! "status") = Some (status p) ∧
  optional (λ v, int_type v ≫= ge_le_int 0 100) None (m !! "health_score")
    = Some (health_score p) ∧
  optional dict_type None (m !! "extra") = Some (extra p).
Proof.
  unfold HealthPayload_validate.
  destruct (required _ (m !! "device_id")) as [f1|]; [|done].
  destruct (optional _ None (m !! "cpu")) as [f2|]; [|done].
  destruct (optional _ None (m !! "ram")) as [f3|]; [|done].
  destruct (optional _ None (m !! "temperature")) as [f4|]; [|done].
  destruct (optional _ _ (m !! "status")) as [f5|]; [|done].
  destruct (optional _ None (m !! "health_score")) as [f6|]; [|done].
  destruct (optional _ None (m !! "extra")) as [f7|]; [|done].
  simpl. by intros [= <-].
Qed.

Lemma HealthPayload_validate_device_id m p :
  HealthPayload_validate (JObject m) = Some p →
  m !! "device_id" = Some (JString (device_id p)) ∧ device_id p ≠ "".
Proof.
  intros (Hid & _)%HealthPayload_validate_fields. unfold required in Hid.
  destruct (m !! "device_id") as [v|]; [|done].
  by apply name_Some in Hid as [-> ?].
Qed.

Lemma optional_value {T : Type} (inner : json → option T)
    (default : option T) (o : option json) (t : T) :
  default = None →
  optional inner default o = Some (Some t) → ∃ v, inner v = Some t.
Proof.
  intros ->. unfold optional. destruct o as [v|]; [|done].
  destruct v; try done;
    (destruct (inner _) as [t'|] eqn:E; [|done]);
    intros [= <-]; by eexists.
Qed.

(** The numbers of a validated payload lie in their ranges. *)
Lemma HealthPayload_validate_ranges m p :
  HealthPayload_validate (JObject m) = Some p →
  (∀ x, cpu p = Some x → percent x) ∧
  (∀ x, ram p = Some x → percent x) ∧
  (∀ n, health_score p = Some n → (0 ≤ n ≤ 100)%Z).
Proof.
  intros (_ & Hcpu & Hram & _ & _ & Hscore & _)%HealthPayload_validate_fields.
  split; [|split].
  - intros x Hx. rewrite Hx in Hcpu.
    apply optional_value in Hcpu as [v Hv]; [|done].
    by apply percent_Some in Hv as [_ ?].
  - intros x Hx. rewrite Hx in Hram.
    apply optional_value in Hram as [v Hv]; [|done].
    by apply percent_Some in Hv as [_ ?].
  - intros n Hn. rewrite Hn in Hscore.
    apply optional_value in Hscore as [v Hv]; [|done].
    by apply score_Some in Hv as [_ ?].
Qed.

(** ** What [model_dump] writes *)

Lemma dump_field_lookup_ne k k' o d :
  k ≠ k' → dump_field k o d !! k' = d !! k'.
Proof.
  intros Hne. destruct o; simpl; [|done]. by rewrite lookup_insert_ne.
Qed.

Lemma dump_field_lookup_eq k o d :
  d !! k = None → dump_field k o d !! k = o.
Proof.
  intros Hd. destruct o; simpl; [|done]. by rewrite lookup_insert_eq.
Qed.

#[local] Ltac dump_lookup :=
  unfold model_dump_exclude_none;
  repeat first
    [ rewrite dump_field_lookup_ne by done
    | rewrite dump_field_lookup_eq; [try done|] ];
  try done.

Lemma model_dump_device_id p :
  model_dump_exclude_none p !! "device_id" = Some (JString (device_id p)).
Proof. dump_lookup. Qed.

Lemma model_dump_cpu p :
  model_dump_exclude_none p !! "cpu" = JFloat <$> cpu p.
Proof. dump_lookup. Qed.

Lemma model_dump_ram p :
  model_dump_exclude_none p !! "ram" = JFloat <$> ram p.
Proof. dump_lookup. Qed.

Lemma model_dump_temperature p :
  model_dump_exclude_none p !! "temperature" = JFloat <$> temperature p.
Proof. dump_lookup. Qed.

Lemma model_dump_status p :
  model_dump_exclude_none p !! "status" = JString <$> status p.
Proof. dump_lookup. Qed.

Lemma model_dump_health_score p :
  model_dump_exclude_none p !! "health_score" = JInt <$> health_score p.
Proof. dump_lookup. Qed.

Lemma model_dump_extra p :
  model_dump_exclude_none p !! "extra" = JObject <$> extra p.
Proof. dump_lookup. Qed.

Lemma model_dump_other p k :
  k ∉ field_names → model_dump_exclude_none p !! k = None.
Proof.
  unfold field_names. rewrite !not_elem_of_cons. intros (?&?&?&?&?&?&?&_).
  unfold model_dump_exclude_none.
  rewrite !dump_field_lookup_ne by done. done.
Qed.

(** ** The stored record *)

Lemma setdefault_lookup_ne k k' v d :
  k ≠ k' → setdefault k v d !! k' = d !! k'.
Proof.
  intros Hne. unfold setdefault. destruct (d !! k); [done|].
  by rewrite lookup_insert_ne.
Qed.

Lemma setdefault_lookup_eq k v d :
  setdefault k v d !! k = Some (default v (d !! k)).
Proof.
  unfold setdefault. destruct (d !! k) eqn:E; simpl; [done|].
  by rewrite lookup_insert_eq.
Qed.

Lemma stored_record_lookup_ne p k :
  k ≠ "status" → stored_record p !! k = model_dump_exclude_none p !! k.
Proof. intros Hne. unfold stored_record. by rewrite setdefault_lookup_ne. Qed.

Lemma stored_record_status p :
  stored_record p !! "status"
    = Some (JString (default "UNKNOWN" (status p))).
Proof.
  unfold stored_record. rewrite setdefault_lookup_eq, model_dump_status.
  by destruct (status p).
Qed.

Lemma stored_record_other p k :
  k ∉ field_names → stored_record p !! k = None.
Proof.
  intros Hk. rewrite stored_record_lookup_ne.
  - by apply model_dump_other.
  - intros ->. apply Hk. unfold field_names. set_solver.
Qed.

(** Every field but [status] is kept exactly when it was supplied, as the
    validated form of what was supplied. *)
Lemma stored_record_field m p k :
  HealthPayload_validate (JObject m) = Some p →
  k ∈ field_names → k ≠ "status" →
  stored_record p !! k = supplied m k ≫= validated k.
Proof.
  intros Hv Hk Hne. rewrite stored_record_lookup_ne by done.
  pose proof (HealthPayload_validate_device_id _ _ Hv) as [Hid Hnonempty].
  apply HealthPayload_validate_fields in Hv
    as (_ & Hcpu & Hram & Htemp & _ & Hscore & Hextra).
  unfold field_names in Hk. rewrite !elem_of_cons, elem_of_nil in Hk.
  destruct Hk as [->|[->|[->|[->|[->|[->|[->|[]]]]]]]]; try done.
  - rewrite model_dump_device_id. unfold supplied. rewrite Hid. simpl.
    change (validated "device_id" (JString (device_id p)))
      with (JString <$> (str_type (JString (device_id p)) ≫= min_length 1)).
    by rewrite (proj2 (name_Some _ _) (conj eq_refl Hnonempty)).
  - rewrite model_dump_cpu.
    by apply (optional_Some_no_default _ JFloat) in Hcpu.
  - rewrite model_dump_ram.
    by apply (optional_Some_no_default _ JFloat) in Hram.
  - rewrite model_dump_temperature.
    by apply (optional_Some_no_default _ JFloat) in Htemp.
  - rewrite model_dump_health_score.
    by apply (optional_Some_no_default _ JInt) in Hscore.
  - rewrite model_dump_extra.
    by apply (optional_Some_no_default _ JObject) in Hextra.
Qed.

(** [status] is what was supplied, the schema default ["OK"] when the key
    is missing, and the fill-in ["UNKNOWN"] when it was sent as [null]. *)
Lemma stored_record_status_of_body m p :
  HealthPayload_validate (JObject m) = Some p →
  stored_record p !! "status" =
    Some (match m !! "status" with
          | None => JString "OK"
          | Some JNull => JString "UNKNOWN"
          | Some v => v
          end).
Proof.
  intros (_&_&_&_& Hst &_)%HealthPayload_validate_fields.
  rewrite stored_record_status. f_equal. unfold optional in Hst.
  destruct (m !! "status") as [v|]; [|by injection Hst as <-].
  destruct v; simpl in Hst; try done; by injection Hst as <-.
Qed.

(** A value that is supplied for a field and passes validation is kept
    under its key in its validated form. *)
Lemma stored_record_supplied m p k v :
  HealthPayload_validate (JObject m) = Some p →
  k ∈ field_names → k ≠ "status" →
  supplied m k = Some v →
  ∃ x, validated k v = Some x ∧ stored_record p !! k = Some x.
Proof.
  intros Hv Hk Hne Hs.
  pose proof (stored_record_field _ _ _ Hv Hk Hne) as Hfield.
  rewrite Hs in Hfield. simpl in Hfield.
  pose proof (HealthPayload_validate_device_id _ _ Hv) as [Hid Hnonempty].
  apply HealthPayload_validate_fields in Hv
    as (_ & Hcpu & Hram & Htemp & _ & Hscore & Hextra).
  unfold field_names in Hk. rewrite !elem_of_cons, elem_of_nil in Hk.
  destruct Hk as [->|[->|[->|[->|[->|[->|[->|[]]]]]]]]; try done.
  - apply supplied_Some in Hs as [Hs _]. rewrite Hid in Hs.
    injection Hs as <-. rewrite Hfield.
    change (validated "device_id" (JString (device_id p)))
      with (JString <$> (str_type (JString (device_id p)) ≫= min_length 1)).
    rewrite (proj2 (name_Some _ _) (conj eq_refl Hnonempty)). by eexists.
  - destruct (optional_Some_supplied _ _ _ _ _ _ Hcpu Hs) as (t & Ht & _).
    rewrite Hfield.
    change (validated "cpu" v) with (JFloat <$> (float_type v ≫= ge_le 0 100)).
    rewrite Ht. by eexists.
  - destruct (optional_Some_supplied _ _ _ _ _ _ Hram Hs) as (t & Ht & _).
    rewrite Hfield.
    change (validated "ram" v) with (JFloat <$> (float_type v ≫= ge_le 0 100)).
    rewrite Ht. by eexists.
  - destruct (optional_Some_supplied _ _ _ _ _ _ Htemp Hs) as (t & Ht & _).
    rewrite Hfield.
    change (validated "temperature" v) with (JFloat <$> float_type v).
    rewrite Ht. by eexists.
  - destruct (optional_Some_supplied _ _ _ _ _ _ Hscore Hs) as (t & Ht & _).
    rewrite Hfield.
    change (validated "health_score" v)
      with (JInt <$> (int_type v ≫= ge_le_int 0 100)).
    rewrite Ht. by eexists.
  - destruct (optional_Some_supplied _ _ _ _ _ _ Hextra Hs) as (t & Ht & _).
    rewrite Hfield.
    change (validated "extra" v) with (JObject <$> dict_type v).
    rewrite Ht. by eexists.
Qed.

(** A value that already has the type of its field is its own validated
    form. *)
Lemma validated_same_type k v x :
  has_field_type k v = true → validated k v = Some x → x = v.
Proof.
  unfold has_field_type, validated.
  destruct v; try done; intros Hk%bool_decide_eq_true.
  - subst k. simpl. unfold ge_le_int.
    destruct (_ && _); simpl; congruence.
  - destruct Hk as [-> | [-> | ->]]; simpl; try congruence;
      unfold ge_le; destruct (_ && _); simpl; congruence.
  - destruct Hk as [-> | ->]; simpl; [|congruence].
    unfold min_length. case_decide; simpl; congruence.
  - subst k. simpl. congruence.
Qed.

Lemma validated_iff k v x : validated k v = Some x ↔ validates_to k v x.
Proof.
  split.
  - unfold validated.
    destruct (decide (k = "device_id")) as [->|_].
    { destruct (str_type v ≫= min_length 1) as [s|] eqn:Hs; [|done].
      apply name_Some in Hs as [-> Hne]. intros [= <-]. by constructor. }
    destruct (decide (k = "cpu" ∨ k = "ram")) as [Hk|_].
    { destruct (float_type v ≫= ge_le 0 100) as [y|] eqn:Hy; [|done].
      apply percent_Some in Hy as (Hy%float_type_iff & Hlo & Hhi).
      intros [= <-]. destruct Hk as [-> | ->]; by constructor. }
    destruct (decide (k = "temperature")) as [->|_].
    { destruct (float_type v) as [y|] eqn:Hy; [|done].
      apply float_type_iff in Hy. intros [= <-]. by constructor. }
    destruct (decide (k = "status")) as [->|_].
    { destruct (str_type v) as [s|] eqn:Hs; [|done].
      apply str_type_Some in Hs as ->. intros [= <-]. constructor. }
    destruct (decide (k = "health_score")) as [->|_].
    { destruct (int_type v ≫= ge_le_int 0 100) as [n|] eqn:Hn; [|done].
      apply score_Some in Hn as (Hn%int_type_iff & Hr).
      intros [= <-]. by constructor. }
    destruct (decide (k = "extra")) as [->|_]; [|done].
    destruct (dict_type v) as [o|] eqn:Ho; [|done].
    apply dict_type_Some in Ho as ->. intros [= <-]. constructor.
  - intros Hv.
    destruct Hv as [s Hne|v x Hx Hlo Hhi|v x Hx Hlo Hhi|v x Hx|s|v n Hn Hr|o].
    + change (validated "device_id" (JString s))
        with (JString <$> (str_type (JString s) ≫= min_length 1)).
      by rewrite (proj2 (name_Some _ _) (conj eq_refl Hne)).
    + change (validated "cpu" v)
        with (JFloat <$> (float_type v ≫= ge_le 0 100)).
      apply float_type_iff in Hx.
      by rewrite (proj2 (percent_Some _ _) (conj Hx (conj Hlo Hhi))).
    + change (validated "ram" v)
        with (JFloat <$> (float_type v ≫= ge_le 0 100)).
      apply float_type_iff in Hx.
      by rewrite (proj2 (percent_Some _ _) (conj Hx (conj Hlo Hhi))).
    + change (validated "temperature" v) with (JFloat <$> float_type v).
      apply float_type_iff in Hx. by rewrite Hx.
    + done.
    + change (validated "health_score" v)
        with (JInt <$> (int_type v ≫= ge_le_int 0 100)).
      apply int_type_iff in Hn.
      by rewrite (proj2 (score_Some _ _) (conj Hn Hr)).
    + done.
Qed.

(** The stored record in terms of what was supplied. *)
Lemma stored_record_validates_to m p k x :
  HealthPayload_validate (JObject m) = Some p →
  k ∈ field_names → k ≠ "status" →
  stored_record p !! k = Some x ↔
  ∃ v, m !! k = Some v ∧ v ≠ JNull ∧ validates_to k v x.
Proof.
  intros Hv Hk Hne. rewrite (stored_record_field m) by done. split.
  - intros Hx. destruct (supplied m k) as [v|] eqn:Hs; [|done].
    apply supplied_Some in Hs as [? ?]. exists v.
    split; [done|]. split; [done|]. by apply validated_iff.
  - intros (v & Hm & Hnull & Hx%validated_iff).
    by rewrite (supplied_intro _ _ _ Hm Hnull).
Qed.

(** ** Validation accepts exactly the valid payloads *)

Lemma HealthPayload_validate_valid body p :
  HealthPayload_validate body = Some p → valid_payload body.
Proof.
  intros Hv. destruct (HealthPayload_validate_object _ _ Hv) as [m ->].
  exists m. split; [done|].
  pose proof (HealthPayload_validate_device_id _ _ Hv) as [Hid Hne].
  apply HealthPayload_validate_fields in Hv
    as (_ & Hcpu & Hram & Htemp & Hst & Hscore & Hextra).
  split; [by eauto|].
  split; [|split; [|split; [|split; [|split]]]]; intros v Hs.
  - destruct (optional_Some_supplied _ _ _ _ _ _ Hcpu Hs) as (x & Hx & _).
    apply percent_Some in Hx as [?%float_type_iff ?]. by exists x.
  - destruct (optional_Some_supplied _ _ _ _ _ _ Hram Hs) as (x & Hx & _).
    apply percent_Some in Hx as [?%float_type_iff ?]. by exists x.
  - destruct (optional_Some_supplied _ _ _ _ _ _ Htemp Hs) as (x & Hx & _).
    apply float_type_iff in Hx. by exists x.
  - destruct (optional_Some_supplied _ _ _ _ _ _ Hst Hs) as (s & Hx & _).
    apply str_type_Some in Hx as ->. by exists s.
  - destruct (optional_Some_supplied _ _ _ _ _ _ Hscore Hs) as (n & Hx & _).
    apply score_Some in Hx as [?%int_type_iff ?]. by exists n.
  - destruct (optional_Some_supplied _ _ _ _ _ _ Hextra Hs) as (o & Hx & _).
    apply dict_type_Some in Hx as ->. by exists o.
Qed.

Lemma valid_payload_validate body :
  valid_payload body → is_Some (HealthPayload_validate body).
Proof.
  intros (m & -> & (s & Hid & Hne) & Hcpu & Hram & Htemp & Hst & Hscore
            & Hextra).
  unfold HealthPayload_validate. rewrite Hid. simpl.
  unfold min_length. rewrite decide_True by (destruct s; [done|simpl; lia]).
  simpl.
  destruct (optional_is_Some (λ v, float_type v ≫= ge_le 0 100) None m "cpu")
    as [f1 ->].
  { intros v (x & Hx%float_type_iff & Hp)%Hcpu. exists x.
    by apply percent_Some. }
  destruct (optional_is_Some (λ v, float_type v ≫= ge_le 0 100) None m "ram")
    as [f2 ->].
  { intros v (x & Hx%float_type_iff & Hp)%Hram. exists x.
    by apply percent_Some. }
  destruct (optional_is_Some float_type None m "temperature") as [f3 ->].
  { intros v (x & Hx%float_type_iff)%Htemp. by exists x. }
  destruct (optional_is_Some str_type (Some "OK") m "status") as [f4 ->].
  { intros v (x & ->)%Hst. by eexists. }
  destruct (optional_is_Some (λ v, int_type v ≫= ge_le_int 0 100) None m
              "health_score") as [f5 ->].
  { intros v (n & Hn%int_type_iff & Hr)%Hscore. exists n.
    by apply score_Some. }
  destruct (optional_is_Some dict_type None m "extra") as [f6 ->].
  { intros v (o & ->)%Hextra. by eexists. }
  by eexists.
Qed.

(** ** Stored records are well formed *)

Lemma stored_record_ok m p :
  HealthPayload_validate (JObject m) = Some p →
  record_ok (device_id p) (stored_record p).
Proof.
  intros Hv.
  destruct (HealthPayload_validate_device_id _ _ Hv) as [_ Hne].
  destruct (HealthPayload_validate_ranges _ _ Hv) as (Hcpu & Hram & Hscore).
  split; [by rewrite stored_record_lookup_ne, model_dump_device_id|].
  split; [done|].
  split; [rewrite stored_record_status; by eexists|].
  split; [|split; [|split]].
  - intros k v Hk.
    destruct (decide (k ∈ field_names)) as [Hin|Hout];
      [|by rewrite stored_record_other in Hk].
    split; [done|].
    destruct (decide (k = "status")) as [->|Hst].
    { rewrite stored_record_status in Hk. by simplify_eq. }
    rewrite stored_record_lookup_ne in Hk by done.
    unfold field_names in Hin. rewrite !elem_of_cons, elem_of_nil in Hin.
    destruct Hin as [->|[->|[->|[->|[->|[->|[->|[]]]]]]]]; try done.
    + rewrite model_dump_device_id in Hk. by simplify_eq.
    + rewrite model_dump_cpu in Hk. destruct (cpu p); by simplify_eq/=.
    + rewrite model_dump_ram in Hk. destruct (ram p); by simplify_eq/=.
    + rewrite model_dump_temperature in Hk.
      destruct (temperature p); by simplify_eq/=.
    + rewrite model_dump_health_score in Hk.
      destruct (health_score p); by simplify_eq/=.
    + rewrite model_dump_extra in Hk. destruct (extra p); by simplify_eq/=.
  - intros v. rewrite stored_record_lookup_ne, model_dump_cpu by done.
    destruct (cpu p) as [x|]; [|done]. intros [= <-]. exists x. eauto.
  - intros v. rewrite stored_record_lookup_ne, model_dump_ram by done.
    destruct (ram p) as [x|]; [|done]. intros [= <-]. exists x. eauto.
  - intros v.
    rewrite stored_record_lookup_ne, model_dump_health_score by done.
    destruct (health_score p) as [n|]; [|done]. intros [= <-].
    exists n. eauto.
Qed.

(** A stored record validates, to a payload that is stored as the same
    record. *)
Lemma stored_record_validates m p :
  HealthPayload_validate (JObject m) = Some p →
  ∃ p',
    HealthPayload_validate (JObject (stored_record p)) = Some p' ∧
    device_id p' = device_id p ∧
    stored_record p' = stored_record p.
Proof.
  intros Hv.
  destruct (HealthPayload_validate_device_id _ _ Hv) as [_ Hne].
  destruct (HealthPayload_validate_ranges _ _ Hv) as (Hcpu & Hram & Hscore).
  set (p' := {| device_id := device_id p; cpu := cpu p; ram := ram p;
                temperature := temperature p;
                status := Some (default "UNKNOWN" (status p));
                health_score := health_score p; extra := extra p |}).
  assert (stored_record p' = stored_record p) as Hsame.
  { apply map_eq. intros k.
    destruct (decide (k ∈ field_names)) as [Hin|Hout];
      [|by rewrite !stored_record_other].
    destruct (decide (k = "status")) as [->|Hst];
      [by rewrite !stored_record_status|].
    rewrite !stored_record_lookup_ne by done.
    unfold field_names in Hin. rewrite !elem_of_cons, elem_of_nil in Hin.
    destruct Hin as [->|[->|[->|[->|[->|[->|[->|[]]]]]]]]; try done.
    - by rewrite !model_dump_device_id.
    - by rewrite !model_dump_cpu.
    - by rewrite !model_dump_ram.
    - by rewrite !model_dump_temperature.
    - by rewrite !model_dump_health_score.
    - by rewrite !model_dump_extra. }
  exists p'. split; [|done].
  unfold HealthPayload_validate.
  rewrite stored_record_status.
  rewrite !stored_record_lookup_ne by done.
  rewrite model_dump_device_id, model_dump_cpu, model_dump_ram,
    model_dump_temperature, model_dump_health_score, model_dump_extra.
  simpl. unfold min_length.
  rewrite decide_True by (destruct (device_id p); [done|simpl; lia]). simpl.
  assert (∀ o : option float,
            (∀ x, o = Some x → percent x) →
            optional (λ v, float_type v ≫= ge_le 0 100) None (JFloat <$> o)
              = Some o) as Hpercent.
  { intros [x|] Hx; [|done]. destruct (Hx x eq_refl) as [H0 H100].
    simpl. unfold ge_le. by rewrite H0, H100. }
  rewrite (Hpercent _ Hcpu), (Hpercent _ Hram). simpl.
  assert (optional float_type None (JFloat <$> temperature p)
            = Some (temperature p)) as -> by by destruct (temperature p).
  simpl.
  assert (optional (λ v, int_type v ≫= ge_le_int 0 100) None
            (JInt <$> health_score p) = Some (health_score p)) as ->.
  { destruct (health_score p) as [n|] eqn:Hn; [|done].
    destruct (Hscore n eq_refl) as [H0 H100].
    simpl. unfold ge_le_int. by rewrite !bool_decide_eq_true_2. }
  simpl.
  assert (optional dict_type None (JObject <$> extra p) = Some (extra p))
    as -> by by destruct (extra p).
  done.
Qed.

(** ** Running a request *)

Section Run.

Variable MAKE_API_KEY : string.
Variable STALE_SECONDS : Z.

Abbreviation serve' := (serve MAKE_API_KEY STALE_SECONDS).

Lemma require_key_ok st :
  require_key MAKE_API_KEY MAKE_API_KEY st = (inr (), st).
Proof. unfold require_key. by case_decide. Qed.

Lemma require_key_wrong key st :
  key ≠ MAKE_API_KEY →
  require_key MAKE_API_KEY key st
    = (inl (HTTPException 401 "Invalid API key"), st).
Proof. intros Hne. unfold require_key. by case_decide. Qed.

Lemma serve_undecodable now key st :
  serve' now
    {| x_api_key := key; target := POST_device_report_undecodable |} st
    = (inl RequestValidationError, st).
Proof. done. Qed.

Lemma serve_no_key now t st :
  serve' now {| x_api_key := None; target := t |} st
    = (inl RequestValidationError, st).
Proof. by destruct t. Qed.

Lemma serve_wrong_key now key t st :
  key ≠ MAKE_API_KEY →
  t ≠ POST_device_report_undecodable →
  serve' now {| x_api_key := Some key; target := t |} st
    = (inl (HTTPException 401 "Invalid API key"), st).
Proof.
  intros Hne Ht.
  destruct t; try done; unfold serve; simpl; unfold mbind, handler_bind;
    by rewrite require_key_wrong.
Qed.

Lemma serve_authorised now t st :
  serve' now {| x_api_key := Some MAKE_API_KEY; target := t |} st =
    match t with
    | GET_root => root st
    | POST_device_report body =>
        match HealthPayload_validate body with
        | None => (inl RequestValidationError, st)
        | Some payload => report_health now payload st
        end
    | POST_device_report_undecodable => (inl RequestValidationError, st)
    | GET_device_health None => (inl RequestValidationError, st)
    | GET_device_health (Some device_id) =>
        get_health STALE_SECONDS now device_id st
    | GET_devices_health => all_health st
    end.
Proof.
  destruct t as [|body| |[id|]|]; try done;
    unfold serve; simpl; unfold mbind, handler_bind;
    rewrite require_key_ok; try done.
  by destruct (HealthPayload_validate body).
Qed.

Lemma report_health_run now p st :
  report_health now p st
    = (inr (ack (device_id p)),
       <[device_id p := {| data := stored_record p; ts := now |}]> st).
Proof. done. Qed.

Lemma get_health_run now id st :
  get_health STALE_SECONDS now id st =
    match st !! id with
    | None => (inl (HTTPException 404 "No data yet for this device_id"), st)
    | Some item =>
        if Qlt_bool (inject_Z STALE_SECONDS) (now - ts item)
        then (inl (HTTPException 503
                     ("Device data is stale ("
                        +:+ pretty (int (now - ts item)) +:+ "s old)")), st)
        else (inr (JObject (data item)), st)
    end.
Proof.
  unfold get_health, mbind, handler_bind, LATEST_get.
  destruct (st !! id) as [item|]; [|done].
  by destruct (Qlt_bool _ _).
Qed.

Lemma all_health_run st :
  all_health st = (inr (JObject ((λ v, JObject (data v)) <$> st)), st).
Proof. done. Qed.

Lemma serve_inr_key now r st a st' :
  serve' now r st = (inr a, st') → x_api_key r = Some MAKE_API_KEY.
Proof.
  destruct r as [[key|] t]; [|by rewrite serve_no_key].
  destruct (decide (key = MAKE_API_KEY)) as [->|Hne]; [done|].
  destruct t; (try by rewrite serve_undecodable); by rewrite serve_wrong_key.
Qed.

Lemma serve_report_inv now r body st a st' :
  target r = POST_device_report body →
  serve' now r st = (inr a, st') →
  ∃ m p,
    body = JObject m ∧ HealthPayload_validate (JObject m) = Some p ∧
    a = ack (device_id p) ∧
    st' = <[device_id p := {| data := stored_record p; ts := now |}]> st.
Proof.
  intros Ht Hrun. pose proof (serve_inr_key _ _ _ _ _ Hrun) as Hkey.
  destruct r as [key t]; simpl in *; subst.
  rewrite serve_authorised in Hrun.
  destruct (HealthPayload_validate body) as [p|] eqn:Hv; [|done].
  destruct (HealthPayload_validate_object _ _ Hv) as [m ->].
  rewrite report_health_run in Hrun. exists m, p. by simplify_eq.
Qed.

End Run.

Lemma ack_inj id id' : ack id = ack id' → id = id'.
Proof.
  intros Heq.
  apply (f_equal (λ j, match j with
                       | JObject m => m !! "stored_for"
                       | _ => None
                       end)) in Heq.
  unfold ack in Heq.
  rewrite !lookup_insert_ne, !lookup_singleton_eq in Heq by done.
  by simplify_eq.
Qed.

(** The answer to a report depends on the body only through what it
    validates to. *)
Lemma serve_report_ext MAKE_API_KEY STALE_SECONDS now key body body' st :
  HealthPayload_validate body = HealthPayload_validate body' →
  serve MAKE_API_KEY STALE_SECONDS now
    {| x_api_key := key; target := POST_device_report body |} st
  = serve MAKE_API_KEY STALE_SECONDS now
      {| x_api_key := key; target := POST_device_report body' |} st.
Proof.
  intros Hsame. destruct key as [key|]; [|by rewrite !serve_no_key].
  destruct (decide (key = MAKE_API_KEY)) as [->|Hne].
  - by rewrite !serve_authorised, Hsame.
  - by rewrite !serve_wrong_key.
Qed.

(** A [null] given for an optional field without default validates like
    a missing key. *)
Lemma null_like_absent m k :
  k ∈ plain_optional_names → m !! k = Some JNull →
  HealthPayload_validate (JObject (delete k m))
    = HealthPayload_validate (JObject m).
Proof.
  unfold plain_optional_names. rewrite !elem_of_cons, elem_of_nil.
  intros Hk Hnull. unfold HealthPayload_validate.
  destruct Hk as [->|[->|[->|[->|[->|[]]]]]];
    rewrite lookup_delete_eq, Hnull, !lookup_delete_ne by done; done.
Qed.

Lemma plain_optional_is_field k :
  k ∈ plain_optional_names → k ∈ field_names ∧ k ≠ "status".
Proof.
  unfold plain_optional_names, field_names.
  rewrite !elem_of_cons, elem_of_nil. naive_solver.
Qed.

(** * The claims *)

Section Claims.

Variable MAKE_API_KEY : string.
Variable STALE_SECONDS : Z.

(** C1, as amended. A report that was accepted is read back by
    [GET /device/health], as long as it is not stale: [get_health]
    returns the record that holds every field of the schema other than
    [status] exactly when the report supplied it with a value that is not
    [null], as the validated form of that value, which is the value
    itself when it has the type of the field, and no other key; its
    [status] is the submitted string, ["OK"] when the report left
    [status] out, and ["UNKNOWN"] when the report sent it as [null]. *)
Theorem report_then_get_health now now' r body st a st' :
  target r = POST_device_report body →
  serve MAKE_API_KEY STALE_SECONDS now r st = (inr a, st') →
  (now' - now <= inject_Z STALE_SECONDS)%Q →
  ∃ m id d,
    body = JObject m ∧ m !! "device_id" = Some (JString id) ∧
    serve MAKE_API_KEY STALE_SECONDS now'
      (with_key MAKE_API_KEY (GET_device_health (Some id))) st'
      = (inr (JObject d), st') ∧
    (∀ k x, k ∈ field_names → k ≠ "status" →
       d !! k = Some x ↔
       ∃ v, m !! k = Some v ∧ v ≠ JNull ∧ validates_to k v x) ∧
    (∀ k v, k ∈ field_names → k ≠ "status" →
       m !! k = Some v → v ≠ JNull → has_field_type k v = true →
       d !! k = Some v) ∧
    (∀ k, k ∉ field_names → d !! k = None) ∧
    d !! "status" = Some (match m !! "status" with
                          | None => JString "OK"
                          | Some JNull => JString "UNKNOWN"
                          | Some v => v
                          end).
Proof.
  intros Ht Hrun Hage.
  destruct (serve_report_inv _ _ _ _ _ _ _ _ Ht Hrun)
    as (m & p & -> & Hv & -> & ->).
  destruct (HealthPayload_validate_device_id _ _ Hv) as [Hid _].
  exists m, (device_id p), (stored_record p).
  split; [done|]. split; [done|]. split.
  - unfold with_key. rewrite serve_authorised, get_health_run.
    rewrite lookup_insert_eq; simpl.
    apply Qlt_bool_false in Hage. by rewrite Hage.
  - split; [|split; [|split]].
    + intros k x Hk Hne. by apply stored_record_validates_to.
    + intros k v Hk Hne Hm Hnull Hty.
      destruct (stored_record_supplied _ _ _ _ Hv Hk Hne
                  (supplied_intro _ _ _ Hm Hnull)) as (x & Hx & ->).
      f_equal. by eapply validated_same_type.
    + intros k Hk. by apply stored_record_other.
    + by apply stored_record_status_of_body.
Qed.


(** C3. For a stored entry, [GET /device/health] succeeds when the age is
    exactly [STALE_SECONDS], and fails with 503 when the age is greater;
    the detail of the 503 holds [int(age)]. *)
Theorem get_health_staleness now id item st :
  st !! id = Some item →
  ((now - ts item == inject_Z STALE_SECONDS)%Q →
   serve MAKE_API_KEY STALE_SECONDS now
     (with_key MAKE_API_KEY (GET_device_health (Some id))) st
     = (inr (JObject (data item)), st)) ∧
  ((inject_Z STALE_SECONDS < now - ts item)%Q →
   serve MAKE_API_KEY STALE_SECONDS now
     (with_key MAKE_API_KEY (GET_device_health (Some id))) st
     = (inl (HTTPException 503
               ("Device data is stale ("
                  +:+ pretty (int (now - ts item)) +:+ "s old)")), st)).
Proof.
  intros Hitem. unfold with_key.
  rewrite serve_authorised, get_health_run, Hitem. split.
  - intros Hage.
    assert (Qlt_bool (inject_Z STALE_SECONDS) (now - ts item) = false)
      as ->; [|done].
    apply Qlt_bool_false. rewrite Hage. apply Qle_refl.
  - intros Hage. apply Qlt_bool_iff in Hage. by rewrite Hage.
Qed.

(** C4. After two accepted reports for one device id, the store holds for
    that id the record of the second report alone, with the time of the
    second report: the store is the one the second report produces on
    its own, every key of the record other than [status] was supplied by
    the second report and holds the validated form of what it supplied,
    which is the supplied value itself when that has the type of the
    field, and the second report adds no entry. *)
Theorem report_twice_keeps_second now1 now2 r1 r2 body1 body2 id st st1 st2 :
  target r1 = POST_device_report body1 →
  target r2 = POST_device_report body2 →
  serve MAKE_API_KEY STALE_SECONDS now1 r1 st = (inr (ack id), st1) →
  serve MAKE_API_KEY STALE_SECONDS now2 r2 st1 = (inr (ack id), st2) →
  ∃ m2 d,
    body2 = JObject m2 ∧
    st2 !! id = Some {| data := d; ts := now2 |} ∧
    serve MAKE_API_KEY STALE_SECONDS now2 r2 st = (inr (ack id), st2) ∧
    (∀ k x, k ≠ "status" → d !! k = Some x →
       ∃ v, m2 !! k = Some v ∧ v ≠ JNull ∧ validates_to k v x) ∧
    (∀ k v, k ∈ field_names → k ≠ "status" →
       m2 !! k = Some v → v ≠ JNull → has_field_type k v = true →
       d !! k = Some v) ∧
    d !! "status" = Some (match m2 !! "status" with
                          | None => JString "OK"
                          | Some JNull => JString "UNKNOWN"
                          | Some v => v
                          end) ∧
    size st2 = size st1 ∧
    (∀ id', id' ≠ id → st2 !! id' = st !! id').
Proof.
  intros Ht1 Ht2 Hrun1 Hrun2.
  pose proof (serve_inr_key _ _ _ _ _ _ _ Hrun2) as Hkey2.
  destruct (serve_report_inv _ _ _ _ _ _ _ _ Ht1 Hrun1)
    as (m1 & p1 & -> & Hv1 & Hid1%ack_inj & ->).
  destruct (serve_report_inv _ _ _ _ _ _ _ _ Ht2 Hrun2)
    as (m2 & p2 & -> & Hv2 & Hid2%ack_inj & ->).
  exists m2, (stored_record p2). rewrite <- Hid1, <- Hid2.
  split; [done|]. split; [by rewrite lookup_insert_eq|]. split.
  - destruct r2 as [key2 t2]; simpl in *; subst key2 t2.
    rewrite serve_authorised, Hv2, report_health_run.
    by rewrite <- Hid2, insert_insert_eq.
  - split; [|split; [|split; [|split]]].
    + intros k x Hne Hk.
      destruct (decide (k ∈ field_names)) as [Hin|Hout];
        [|by rewrite stored_record_other in Hk].
      by apply (stored_record_validates_to m2) in Hk.
    + intros k v Hk Hne Hm Hnull Hty.
      destruct (stored_record_supplied _ _ _ _ Hv2 Hk Hne
                  (supplied_intro _ _ _ Hm Hnull)) as (x & Hx & ->).
      f_equal. by eapply validated_same_type.
    + by apply stored_record_status_of_body.
    + rewrite insert_insert_eq.
      by rewrite !map_size_insert.
    + intros id' Hne. by rewrite !lookup_insert_ne.
Qed.

(** C5, as amended. In the record stored for an accepted report, a key
    other than [status] is there exactly when it is a field that the
    report supplied with a value that is not [null], and it maps to the
    validated form of that value, which is the value itself when it has
    the type of the field; a field among [cpu], [ram], [temperature],
    [health_score] and [extra] that the report left out or sent as [null]
    is not in the record. *)
Theorem stored_record_keys now r body st a st' :
  target r = POST_device_report body →
  serve MAKE_API_KEY STALE_SECONDS now r st = (inr a, st') →
  ∃ m id item,
    body = JObject m ∧ a = ack id ∧ st' !! id = Some item ∧
    (∀ k x, k ≠ "status" →
       data item !! k = Some x ↔
       k ∈ field_names ∧
       ∃ v, m !! k = Some v ∧ v ≠ JNull ∧ validates_to k v x) ∧
    (∀ k v, k ∈ field_names → k ≠ "status" →
       m !! k = Some v → v ≠ JNull → has_field_type k v = true →
       data item !! k = Some v) ∧
    (∀ k, k ∈ plain_optional_names →
       m !! k = None ∨ m !! k = Some JNull → data item !! k = None).
Proof.
  intros Ht Hrun.
  destruct (serve_report_inv _ _ _ _ _ _ _ _ Ht Hrun)
    as (m & p & -> & Hv & -> & ->).
  exists m, (device_id p), {| data := stored_record p; ts := now |}.
  split; [done|]. split; [done|]. split; [by rewrite lookup_insert_eq|].
  simpl. split; [|split].
  - intros k x Hne. destruct (decide (k ∈ field_names)) as [Hin|Hout].
    + rewrite (stored_record_validates_to m) by done. naive_solver.
    + rewrite stored_record_other by done. naive_solver.
  - intros k v Hk Hne Hm Hnull Hty.
    destruct (stored_record_supplied _ _ _ _ Hv Hk Hne
                (supplied_intro _ _ _ Hm Hnull)) as (x & Hx & ->).
    f_equal. by eapply validated_same_type.
  - intros k Hk Hnone.
    destruct (plain_optional_is_field _ Hk) as [Hin Hne].
    rewrite (stored_record_field m) by done. unfold supplied.
    by destruct Hnone as [-> | ->].
Qed.

(** C6. [GET /devices/health] answers with the mapping whose keys are the
    device ids of the store and whose values are the stored records; the
    time of the request plays no part, so an entry that
    [GET /device/health] rejects as stale (503) is in the answer all the
    same. *)
Theorem all_health_unfiltered now st :
  ∃ res,
    serve MAKE_API_KEY STALE_SECONDS now
      (with_key MAKE_API_KEY GET_devices_health) st
      = (inr (JObject res), st) ∧
    dom res = dom st ∧
    (∀ id item,
       st !! id = Some item → res !! id = Some (JObject (data item))) ∧
    (∀ id item,
       st !! id = Some item →
       (inject_Z STALE_SECONDS < now - ts item)%Q →
       http_status
         (serve MAKE_API_KEY STALE_SECONDS now
            (with_key MAKE_API_KEY (GET_device_health (Some id))) st).1
         = 503%Z ∧
       res !! id = Some (JObject (data item))).
Proof.
  exists ((λ v, JObject (data v)) <$> st). unfold with_key.
  rewrite serve_authorised, all_health_run.
  split; [done|]. split; [by rewrite dom_fmap_L|].
  assert (∀ id item, st !! id = Some item →
            ((λ v, JObject (data v)) <$> st) !! id
              = Some (JObject (data item))) as Hres.
  { intros id item Hitem. by rewrite lookup_fmap, Hitem. }
  split; [done|].
  intros id item Hitem Hage. split; [|by apply Hres].
  rewrite serve_authorised, get_health_run, Hitem.
  apply Qlt_bool_iff in Hage. by rewrite Hage.
Qed.

(** C7. [GET /device/health] for a device id the store has no entry for
    fails with 404 and the detail ["No data yet for this device_id"],
    whatever the store holds for other ids. *)
Theorem get_health_unknown_device now id st :
  st !! id = None →
  serve MAKE_API_KEY STALE_SECONDS now
    (with_key MAKE_API_KEY (GET_device_health (Some id))) st
    = (inl (HTTPException 404 "No data yet for this device_id"), st).
Proof.
  intros Hnone. unfold with_key.
  by rewrite serve_authorised, get_health_run, Hnone.
Qed.

(** C8, as amended. [POST /device/report] stores a report exactly when
    the payload is valid: [device_id] a non-empty string, [cpu] and
    [ram], where supplied, read by the lenient validation as a float in
    [0, 100], [health_score], where supplied, read as an integer in
    [0, 100], [temperature] read as a float, [status] a string and
    [extra] an object. Any other payload fails with the validation error
    (422) and the store is left as it was. *)
Theorem report_validation now body st :
  (valid_payload body ∧
   ∃ id st',
     serve MAKE_API_KEY STALE_SECONDS now
       (with_key MAKE_API_KEY (POST_device_report body)) st
       = (inr (ack id), st')) ∨
  (¬ valid_payload body ∧
   serve MAKE_API_KEY STALE_SECONDS now
     (with_key MAKE_API_KEY (POST_device_report body)) st
     = (inl RequestValidationError, st) ∧
   http_status (inl RequestValidationError) = 422%Z).
Proof.
  unfold with_key. rewrite serve_authorised.
  destruct (HealthPayload_validate body) as [p|] eqn:Hv.
  - left. split; [by eapply HealthPayload_validate_valid|].
    rewrite report_health_run. eauto.
  - right. split; [|done].
    intros [p Hp]%valid_payload_validate. congruence.
Qed.

(** C9. A report that sends [status] as [null] is stored with status
    ["UNKNOWN"], while a report that leaves [status] out is stored with
    the schema default ["OK"]. A [null] in any other optional field is
    treated like a missing key: the field is not in the stored record,
    and the report gets the same answer and leaves the same store as the
    report without that key. *)
Theorem null_status_is_UNKNOWN now r m st a st' :
  target r = POST_device_report (JObject m) →
  serve MAKE_API_KEY STALE_SECONDS now r st = (inr a, st') →
  ∃ id item,
    a = ack id ∧ st' !! id = Some item ∧
    (m !! "status" = Some JNull →
     data item !! "status" = Some (JString "UNKNOWN")) ∧
    (m !! "status" = None →
     data item !! "status" = Some (JString "OK")) ∧
    (∀ k, k ∈ plain_optional_names → m !! k = Some JNull →
       data item !! k = None ∧
       serve MAKE_API_KEY STALE_SECONDS now
         {| x_api_key := x_api_key r;
            target := POST_device_report (JObject (delete k m)) |} st
         = (inr a, st')).
Proof.
  intros Ht Hrun.
  destruct (serve_report_inv _ _ _ _ _ _ _ _ Ht Hrun)
    as (m' & p & [= <-] & Hv & -> & ->).
  exists (device_id p), {| data := stored_record p; ts := now |}.
  split; [done|]. split; [by rewrite lookup_insert_eq|]. simpl.
  pose proof (stored_record_status_of_body _ _ Hv) as Hst.
  split; [|split].
  - intros Hnull. by rewrite Hnull in Hst.
  - intros Hnone. by rewrite Hnone in Hst.
  - intros k Hk Hnull. split.
    + destruct (plain_optional_is_field _ Hk) as [Hin Hne].
      rewrite (stored_record_field m) by done. unfold supplied.
      by rewrite Hnull.
    + rewrite (serve_report_ext _ _ _ _ _ (JObject m))
        by by apply null_like_absent.
      destruct r as [key t]; simpl in *. by subst t.
Qed.

(** C10. The three reading routes leave the store as it was, whatever the
    key, the parameters and the outcome. *)
Theorem reads_leave_store now key id st :
  (serve MAKE_API_KEY STALE_SECONDS now
     {| x_api_key := key; target := GET_root |} st).2 = st ∧
  (serve MAKE_API_KEY STALE_SECONDS now
     {| x_api_key := key; target := GET_device_health id |} st).2 = st ∧
  (serve MAKE_API_KEY STALE_SECONDS now
     {| x_api_key := key; target := GET_devices_health |} st).2 = st.
Proof.
  destruct key as [key|]; [|done].
  destruct (decide (key = MAKE_API_KEY)) as [->|Hne].
  - rewrite !serve_authorised. split; [done|]. split; [|done].
    destruct id as [id|]; [|done]. rewrite get_health_run.
    destruct (st !! id) as [item|]; [|done].
    by destruct (Qlt_bool _ _).
  - by rewrite !serve_wrong_key.
Qed.

End Claims.

(** * Further properties of the service *)

(** ** What a request does to the store *)

Section Effects.

Variable MAKE_API_KEY : string.
Variable STALE_SECONDS : Z.

Lemma serve_report_of now r st id e :
  report_of MAKE_API_KEY now r = Some (id, e) →
  serve MAKE_API_KEY STALE_SECONDS now r st
    = (inr (ack id), <[id := e]> st).
Proof.
  destruct r as [[key|] t]; [|done]. destruct t as [|body| | |]; try done.
  unfold report_of; simpl. case_decide as Hkey; [subst key|done].
  intros Hrep. rewrite serve_authorised.
  destruct (HealthPayload_validate body) as [p|]; [|done].
  simpl in Hrep. injection Hrep as <- <-. apply report_health_run.
Qed.

Lemma serve_no_report now r st :
  report_of MAKE_API_KEY now r = None →
  (serve MAKE_API_KEY STALE_SECONDS now r st).2 = st.
Proof.
  destruct r as [[key|] t]; [|by rewrite serve_no_key].
  destruct (decide (key = MAKE_API_KEY)) as [->|Hne].
  - rewrite serve_authorised. unfold report_of; simpl.
    destruct t as [|body| |[id|]|]; try done.
    + rewrite decide_True by done.
      by destruct (HealthPayload_validate body).
    + intros _. rewrite get_health_run.
      destruct (st !! id) as [item|]; [|done]. by destruct (Qlt_bool _ _).
  - intros _.
    destruct t; (try by rewrite serve_undecodable);
      by rewrite serve_wrong_key.
Qed.

Lemma serve_store now r st :
  (serve MAKE_API_KEY STALE_SECONDS now r st).2 =
    match report_of MAKE_API_KEY now r with
    | Some (id, e) => <[id := e]> st
    | None => st
    end.
Proof.
  destruct (report_of MAKE_API_KEY now r) as [[id e]|] eqn:Hrep.
  - by rewrite (serve_report_of _ _ _ _ _ Hrep).
  - by apply serve_no_report.
Qed.

Lemma serve_report_inv_of now r body st id st' :
  target r = POST_device_report body →
  serve MAKE_API_KEY STALE_SECONDS now r st = (inr (ack id), st') →
  ∃ e, report_of MAKE_API_KEY now r = Some (id, e) ∧ st' = <[id := e]> st.
Proof.
  intros Ht Hrun.
  pose proof (serve_inr_key _ _ _ _ _ _ _ Hrun) as Hkey.
  destruct (serve_report_inv _ _ _ _ _ _ _ _ Ht Hrun)
    as (m & p & -> & Hv & Hid%ack_inj & ->).
  eexists. split; [|by rewrite Hid].
  unfold report_of. rewrite Hkey, Ht, decide_True, Hv by done.
  simpl. by rewrite Hid.
Qed.

Lemma report_of_Some now r id e :
  report_of MAKE_API_KEY now r = Some (id, e) →
  ∃ m p,
    x_api_key r = Some MAKE_API_KEY ∧
    target r = POST_device_report (JObject m) ∧
    HealthPayload_validate (JObject m) = Some p ∧
    id = device_id p ∧ e = {| data := stored_record p; ts := now |}.
Proof.
  destruct r as [[key|] t]; [|done]. destruct t as [|body| | |]; try done.
  unfold report_of; simpl. case_decide as Hkey; [subst key|done].
  destruct (HealthPayload_validate body) as [p|] eqn:Hv; [|done].
  destruct (HealthPayload_validate_object _ _ Hv) as [m ->].
  simpl. intros [= <- <-]. by exists m, p.
Qed.

(** X1. A request that is answered with an error, whichever it is, leaves
    the store exactly as it was. *)
Theorem failure_leaves_store now r st e :
  (serve MAKE_API_KEY STALE_SECONDS now r st).1 = inl e →
  (serve MAKE_API_KEY STALE_SECONDS now r st).2 = st.
Proof.
  intros Hfail.
  destruct (report_of MAKE_API_KEY now r) as [[id item]|] eqn:Hrep.
  - by rewrite (serve_report_of _ _ _ _ _ Hrep) in Hfail.
  - by apply serve_no_report.
Qed.


(** X3. An accepted report for one device leaves the entry of every other
    device as it was, and with it every answer of [GET /device/health]
    for another device. *)
Theorem report_leaves_other_devices now r body st id st' id' :
  target r = POST_device_report body →
  serve MAKE_API_KEY STALE_SECONDS now r st = (inr (ack id), st') →
  id' ≠ id →
  st' !! id' = st !! id' ∧
  ∀ t,
    (serve MAKE_API_KEY STALE_SECONDS t
       (with_key MAKE_API_KEY (GET_device_health (Some id'))) st').1
    = (serve MAKE_API_KEY STALE_SECONDS t
         (with_key MAKE_API_KEY (GET_device_health (Some id'))) st).1.
Proof.
  intros Ht Hrun Hne.
  destruct (serve_report_inv_of _ _ _ _ _ _ Ht Hrun) as (e & _ & ->).
  assert (<[id := e]> st !! id' = st !! id') as Hother
    by by rewrite lookup_insert_ne.
  split; [done|]. intros t. unfold with_key.
  rewrite !serve_authorised, !get_health_run, Hother.
  destruct (st !! id') as [item|]; [|done]. by destruct (Qlt_bool _ _).
Qed.

(** X4. Reports for two different devices can be served in either order:
    if the first then the second are accepted at two readings of the
    clock, then the second then the first are accepted at those two
    readings as well, and the two stores hold the same record for every
    device, so that [GET /devices/health] answers the same. What differs
    is the time kept with each record, which is the reading at which its
    report was served. *)
Theorem reports_commute t1 t2 r1 r2 body1 body2 id1 id2 st st1 st12 :
  target r1 = POST_device_report body1 →
  target r2 = POST_device_report body2 →
  serve MAKE_API_KEY STALE_SECONDS t1 r1 st = (inr (ack id1), st1) →
  serve MAKE_API_KEY STALE_SECONDS t2 r2 st1 = (inr (ack id2), st12) →
  id1 ≠ id2 →
  ∃ st2 st21,
    serve MAKE_API_KEY STALE_SECONDS t1 r2 st = (inr (ack id2), st2) ∧
    serve MAKE_API_KEY STALE_SECONDS t2 r1 st2 = (inr (ack id1), st21) ∧
    data <$> st21 = data <$> st12 ∧
    (∀ t,
       (serve MAKE_API_KEY STALE_SECONDS t
          (with_key MAKE_API_KEY GET_devices_health) st21).1
       = (serve MAKE_API_KEY STALE_SECONDS t
            (with_key MAKE_API_KEY GET_devices_health) st12).1) ∧
    ts <$> st12 !! id1 = Some t1 ∧ ts <$> st12 !! id2 = Some t2 ∧
    ts <$> st21 !! id1 = Some t2 ∧ ts <$> st21 !! id2 = Some t1.
Proof.
  intros Ht1 Ht2 Hrun1 Hrun2 Hne.
  destruct (serve_report_inv_of _ _ _ _ _ _ Ht1 Hrun1) as (e1 & Hr1 & ->).
  destruct (serve_report_inv_of _ _ _ _ _ _ Ht2 Hrun2) as (e2 & Hr2 & ->).
  destruct (report_of_Some _ _ _ _ Hr1)
    as (m1 & p1 & Hk1 & Hb1 & Hv1 & -> & ->).
  destruct (report_of_Some _ _ _ _ Hr2)
    as (m2 & p2 & Hk2 & Hb2 & Hv2 & -> & ->).
  assert (report_of MAKE_API_KEY t1 r2
            = Some (device_id p2, {| data := stored_record p2; ts := t1 |}))
    as Hr2'.
  { unfold report_of. by rewrite Hk2, Hb2, decide_True, Hv2. }
  assert (report_of MAKE_API_KEY t2 r1
            = Some (device_id p1, {| data := stored_record p1; ts := t2 |}))
    as Hr1'.
  { unfold report_of. by rewrite Hk1, Hb1, decide_True, Hv1. }
  eexists _, _.
  split; [by apply serve_report_of|].
  split; [by apply serve_report_of|].
  assert (data <$> <[device_id p1 := {| data := stored_record p1; ts := t2 |}]>
                     (<[device_id p2 :=
                          {| data := stored_record p2; ts := t1 |}]> st)
          = data <$> <[device_id p2 :=
                         {| data := stored_record p2; ts := t2 |}]>
                       (<[device_id p1 :=
                            {| data := stored_record p1; ts := t1 |}]> st))
    as Hdata.
  { rewrite !fmap_insert. simpl. by rewrite insert_insert_ne. }
  split; [done|]. split.
  - intros t. unfold with_key. rewrite !serve_authorised, !all_health_run.
    assert (∀ s : LATEST,
              (λ v, JObject (data v)) <$> s = JObject <$> (data <$> s)) as Hc
      by (intros s; by rewrite <- map_fmap_compose).
    simpl. by rewrite !Hc, Hdata.
  - rewrite !lookup_insert_eq.
    rewrite (lookup_insert_ne _ (device_id p2) (device_id p1)) by done.
    rewrite (lookup_insert_ne _ (device_id p1) (device_id p2)) by done.
    by rewrite !lookup_insert_eq.
Qed.

End Effects.

(** ** The store through a list of requests *)

Section Histories.

Variable MAKE_API_KEY : string.
Variable STALE_SECONDS : Z.

Lemma serve_store_ok now r st :
  store_ok st → store_ok (serve MAKE_API_KEY STALE_SECONDS now r st).2.
Proof.
  intros Hst. rewrite serve_store.
  destruct (report_of MAKE_API_KEY now r) as [[id e]|] eqn:Hrep; [|done].
  destruct (report_of_Some _ _ _ _ _ Hrep)
    as (m & p & _ & _ & Hv & -> & ->).
  intros id' item. destruct (decide (id' = device_id p)) as [->|Hne].
  - rewrite lookup_insert_eq. intros [= <-]. simpl.
    by eapply stored_record_ok.
  - rewrite lookup_insert_ne by done. apply Hst.
Qed.

Lemma serve_all_store_ok reqs st :
  store_ok st → store_ok (serve_all MAKE_API_KEY STALE_SECONDS reqs st).
Proof.
  revert st. induction reqs as [|[now r] reqs IH]; intros st Hst; [done|].
  simpl. by apply IH, serve_store_ok.
Qed.

Lemma serve_all_app reqs1 reqs2 st :
  serve_all MAKE_API_KEY STALE_SECONDS (reqs1 ++ reqs2) st
    = serve_all MAKE_API_KEY STALE_SECONDS reqs2
        (serve_all MAKE_API_KEY STALE_SECONDS reqs1 st).
Proof.
  revert st. induction reqs1 as [|[now r] reqs1 IH]; intros st; [done|].
  simpl. apply IH.
Qed.

Lemma serve_all_untouched reqs id st :
  (∀ t r e, (t, r) ∈ reqs → report_of MAKE_API_KEY t r ≠ Some (id, e)) →
  serve_all MAKE_API_KEY STALE_SECONDS reqs st !! id = st !! id.
Proof.
  revert st. induction reqs as [|[now r] reqs IH]; intros st Hno; [done|].
  simpl. rewrite IH by (intros t r' e Hin; apply Hno; by right).
  rewrite serve_store.
  destruct (report_of MAKE_API_KEY now r) as [[id' e]|] eqn:Hrep; [|done].
  apply lookup_insert_ne. intros ->. by apply (Hno now r e); [left|].
Qed.

(** X5. After any list of requests, the entry the store holds for a
    device is the one written by the last accepted report for that device:
    its record and the time at which it was served. *)
Theorem latest_report_wins reqs1 now r reqs2 id e st :
  report_of MAKE_API_KEY now r = Some (id, e) →
  (∀ t r' e', (t, r') ∈ reqs2 →
     report_of MAKE_API_KEY t r' ≠ Some (id, e')) →
  serve_all MAKE_API_KEY STALE_SECONDS (reqs1 ++ (now, r) :: reqs2) st !! id
    = Some e ∧
  ts e = now.
Proof.
  intros Hrep Hlater. split.
  - rewrite serve_all_app. simpl. rewrite serve_all_untouched by done.
    rewrite (serve_report_of _ _ _ _ _ _ _ Hrep). simpl.
    apply lookup_insert_eq.
  - by destruct (report_of_Some _ _ _ _ _ Hrep)
      as (m & p & _ & _ & _ & _ & ->).
Qed.

(** X6. Starting from the empty store, a device for which no report was
    accepted has no entry, and [GET /device/health] answers 404 for it,
    however many requests were served for other devices. *)
Theorem unreported_device_is_unknown reqs id now :
  (∀ t r e, (t, r) ∈ reqs → report_of MAKE_API_KEY t r ≠ Some (id, e)) →
  serve_all MAKE_API_KEY STALE_SECONDS reqs ∅ !! id = None ∧
  http_status
    (serve MAKE_API_KEY STALE_SECONDS now
       (with_key MAKE_API_KEY (GET_device_health (Some id)))
       (serve_all MAKE_API_KEY STALE_SECONDS reqs ∅)).1 = 404%Z.
Proof.
  intros Hno.
  assert (serve_all MAKE_API_KEY STALE_SECONDS reqs ∅ !! id = None) as Hnone
    by by rewrite serve_all_untouched.
  split; [done|]. unfold with_key.
  by rewrite serve_authorised, get_health_run, Hnone.
Qed.

(** X7. The store never loses a device: every id that has an entry keeps
    one through any list of requests, and a list of [n] requests adds at
    most [n] entries. *)
Theorem store_only_grows reqs st :
  dom st ⊆ dom (serve_all MAKE_API_KEY STALE_SECONDS reqs st) ∧
  size (serve_all MAKE_API_KEY STALE_SECONDS reqs st)
    ≤ size st + length reqs.
Proof.
  revert st. induction reqs as [|[now r] reqs IH]; intros st; simpl.
  - split; [done|lia].
  - destruct (IH (serve MAKE_API_KEY STALE_SECONDS now r st).2)
      as [Hdom Hsize].
    rewrite serve_store in *.
    destruct (report_of MAKE_API_KEY now r) as [[id e]|].
    + split.
      * etrans; [|exact Hdom]. rewrite dom_insert_L. set_solver.
      * etrans; [exact Hsize|]. rewrite map_size_insert.
        destruct (st !! id); simpl; lia.
    + split; [done|lia].
Qed.

(** X8. Starting from the empty store, every record the store holds after
    any list of requests is well formed, and so is every record that
    [GET /device/health] returns: it names the device id it was asked
    for, has a string as [status], has only fields of the schema as keys,
    none mapped to [null], and its [cpu], [ram] and [health_score] lie in
    their ranges. *)
Theorem served_records_well_formed reqs :
  store_ok (serve_all MAKE_API_KEY STALE_SECONDS reqs ∅) ∧
  ∀ now id j st',
    serve MAKE_API_KEY STALE_SECONDS now
      (with_key MAKE_API_KEY (GET_device_health (Some id)))
      (serve_all MAKE_API_KEY STALE_SECONDS reqs ∅) = (inr j, st') →
    ∃ d, j = JObject d ∧ record_ok id d.
Proof.
  assert (store_ok (serve_all MAKE_API_KEY STALE_SECONDS reqs ∅)) as Hok.
  { apply serve_all_store_ok. intros id item. by rewrite lookup_empty. }
  split; [done|]. intros now id j st'. unfold with_key.
  rewrite serve_authorised, get_health_run.
  destruct (serve_all _ _ reqs ∅ !! id) as [item|] eqn:Hitem; [|done].
  destruct (Qlt_bool _ _); [done|]. intros [= <- _].
  exists (data item). split; [done|]. by apply Hok.
Qed.

End Histories.

(** ** Reading: ages and the two queries *)

Lemma int_above_threshold (n : Z) (x : Q) :
  (inject_Z n < x)%Q → (n ≤ int x)%Z.
Proof.
  intros Hlt. rewrite int_truncates.
  destruct (Qle_bool 0 x) eqn:Hsign.
  - rewrite <- (Qfloor_Z n). by apply Qfloor_resp_le, Qlt_le_weak.
  - apply Z.lt_le_incl. rewrite Zlt_Qlt.
    eapply Qlt_le_trans; [exact Hlt|apply Qle_ceiling].
Qed.

Lemma int_brackets (x : Q) :
  (0 <= x)%Q → (inject_Z (int x) <= x)%Q ∧ (x < inject_Z (int x + 1))%Q.
Proof.
  intros Hx. rewrite int_truncates.
  apply Qle_bool_iff in Hx. rewrite Hx.
  split; [apply Qfloor_le|apply Qlt_floor].
Qed.

Section Reading.

Variable MAKE_API_KEY : string.
Variable STALE_SECONDS : Z.

(** X9. The two queries agree: [GET /device/health] answers 404 for an id
    exactly when the answer of [GET /devices/health] has no key for it,
    and a record it returns is the one found there under that id. *)
Theorem get_health_agrees_with_all_health now id st :
  ∃ res,
    serve MAKE_API_KEY STALE_SECONDS now
      (with_key MAKE_API_KEY GET_devices_health) st
      = (inr (JObject res), st) ∧
    (res !! id = None ↔
     http_status
       (serve MAKE_API_KEY STALE_SECONDS now
          (with_key MAKE_API_KEY (GET_device_health (Some id))) st).1
       = 404%Z) ∧
    (∀ j st',
       serve MAKE_API_KEY STALE_SECONDS now
         (with_key MAKE_API_KEY (GET_device_health (Some id))) st
         = (inr j, st') →
       res !! id = Some j).
Proof.
  exists ((λ v, JObject (data v)) <$> st). unfold with_key.
  rewrite !serve_authorised, all_health_run, get_health_run, lookup_fmap.
  split; [done|].
  destruct (st !! id) as [item|]; simpl.
  - destruct (Qlt_bool _ _); simpl; (split; [done|]); [done|].
    by intros j st' [= <- _].
  - done.
Qed.

(** X10. Staleness only sets in: an entry that [GET /device/health]
    rejects as stale is rejected at every later time as well, and a
    record returned at some time is returned, the same, at every earlier
    time. *)
Theorem staleness_is_monotone t1 t2 id st :
  (t1 <= t2)%Q →
  (http_status
     (serve MAKE_API_KEY STALE_SECONDS t1
        (with_key MAKE_API_KEY (GET_device_health (Some id))) st).1
     = 503%Z →
   http_status
     (serve MAKE_API_KEY STALE_SECONDS t2
        (with_key MAKE_API_KEY (GET_device_health (Some id))) st).1
     = 503%Z) ∧
  (∀ j,
     (serve MAKE_API_KEY STALE_SECONDS t2
        (with_key MAKE_API_KEY (GET_device_health (Some id))) st).1
       = inr j →
     (serve MAKE_API_KEY STALE_SECONDS t1
        (with_key MAKE_API_KEY (GET_device_health (Some id))) st).1
       = inr j).
Proof.
  intros Hle. unfold with_key.
  rewrite !serve_authorised, !get_health_run.
  destruct (st !! id) as [item|]; [|done].
  assert (Qlt_bool (inject_Z STALE_SECONDS) (t1 - ts item) = true →
          Qlt_bool (inject_Z STALE_SECONDS) (t2 - ts item) = true) as Hmono.
  { rewrite !Qlt_bool_iff. intros Hstale.
    eapply Qlt_le_trans; [exact Hstale|]. by apply Qplus_le_l. }
  destruct (Qlt_bool _ (t1 - ts item)) eqn:H1.
  - by rewrite Hmono.
  - by destruct (Qlt_bool _ (t2 - ts item)).
Qed.

(** X11. The number of seconds in the detail of a 503 is never below
    [STALE_SECONDS]; when [STALE_SECONDS] is not negative it is the age
    rounded down to a whole second. *)
Theorem stale_age_reaches_threshold now id item st :
  st !! id = Some item →
  (inject_Z STALE_SECONDS < now - ts item)%Q →
  ∃ n,
    serve MAKE_API_KEY STALE_SECONDS now
      (with_key MAKE_API_KEY (GET_device_health (Some id))) st
      = (inl (HTTPException 503
                ("Device data is stale (" +:+ pretty n +:+ "s old)")), st) ∧
    n = int (now - ts item) ∧
    (STALE_SECONDS ≤ n)%Z ∧
    ((0 ≤ STALE_SECONDS)%Z →
     (inject_Z n <= now - ts item)%Q ∧ (now - ts item < inject_Z (n + 1))%Q).
Proof.
  intros Hitem Hstale. exists (int (now - ts item)). unfold with_key.
  rewrite serve_authorised, get_health_run, Hitem.
  pose proof Hstale as Hb. apply Qlt_bool_iff in Hb. rewrite Hb.
  split; [done|]. split; [done|].
  split; [by apply int_above_threshold|].
  intros Hpos. apply int_brackets.
  apply Qlt_le_weak. eapply Qle_lt_trans; [|exact Hstale].
  change 0%Q with (inject_Z 0). by rewrite <- Zle_Qle.
Qed.


(** X13. Once a report is accepted, [GET /devices/health] answers with
    what it answered before, with the new record put under the device id
    of the report. *)
Theorem report_shows_in_all_health now t r body st id st' res :
  target r = POST_device_report body →
  serve MAKE_API_KEY STALE_SECONDS now r st = (inr (ack id), st') →
  serve MAKE_API_KEY STALE_SECONDS t
    (with_key MAKE_API_KEY GET_devices_health) st
    = (inr (JObject res), st) →
  ∃ d,
    st' !! id = Some {| data := d; ts := now |} ∧
    serve MAKE_API_KEY STALE_SECONDS t
      (with_key MAKE_API_KEY GET_devices_health) st'
      = (inr (JObject (<[id := JObject d]> res)), st').
Proof.
  intros Ht Hrun. unfold with_key.
  rewrite !serve_authorised, !all_health_run. intros [= <-].
  destruct (serve_report_inv_of _ _ _ _ _ _ _ _ Ht Hrun) as (e & Hrep & ->).
  destruct (report_of_Some _ _ _ _ _ Hrep)
    as (m & p & _ & _ & _ & _ & ->).
  exists (stored_record p). split; [by rewrite lookup_insert_eq|].
  by rewrite fmap_insert.
Qed.

End Reading.

(** ** Validation and the stored record *)

Section Validation.

Variable MAKE_API_KEY : string.
Variable STALE_SECONDS : Z.

(** X14. A key of the body that is not a field of the schema is ignored:
    with or without it the report validates to the same payload, and the
    request gets the same answer and leaves the same store. *)
Theorem unknown_keys_are_ignored m k v :
  k ∉ field_names →
  HealthPayload_validate (JObject (<[k := v]> m))
    = HealthPayload_validate (JObject m) ∧
  ∀ now key st,
    serve MAKE_API_KEY STALE_SECONDS now
      {| x_api_key := key;
         target := POST_device_report (JObject (<[k := v]> m)) |} st
    = serve MAKE_API_KEY STALE_SECONDS now
        {| x_api_key := key; target := POST_device_report (JObject m) |} st.
Proof.
  unfold field_names. rewrite !not_elem_of_cons. intros (?&?&?&?&?&?&?&_).
  assert (HealthPayload_validate (JObject (<[k := v]> m))
            = HealthPayload_validate (JObject m)) as Hsame.
  { unfold HealthPayload_validate. by rewrite !lookup_insert_ne. }
  split; [done|]. intros now key st. by apply serve_report_ext.
Qed.

(** X15. The record stored for an accepted report can be sent back as a
    report: with the configured key it is accepted for the same device
    id, whatever the store and the time, and the entry it writes holds
    the same record. *)
Theorem stored_record_resubmits now r body st id st' :
  target r = POST_device_report body →
  serve MAKE_API_KEY STALE_SECONDS now r st = (inr (ack id), st') →
  ∃ item,
    st' !! id = Some item ∧
    ∀ now' st2,
      serve MAKE_API_KEY STALE_SECONDS now'
        (with_key MAKE_API_KEY (POST_device_report (JObject (data item))))
        st2
      = (inr (ack id), <[id := {| data := data item; ts := now' |}]> st2).
Proof.
  intros Ht Hrun.
  destruct (serve_report_inv _ _ _ _ _ _ _ _ Ht Hrun)
    as (m & p & -> & Hv & Hid%ack_inj & ->).
  exists {| data := stored_record p; ts := now |}.
  split; [by rewrite Hid, lookup_insert_eq|].
  intros now' st2. simpl.
  destruct (stored_record_validates _ _ Hv) as (p' & Hv' & Hid' & Hsame).
  unfold with_key. rewrite serve_authorised, Hv', report_health_run.
  by rewrite Hid', Hsame, Hid.
Qed.

(** X16. Whether a report is accepted, and the answer it gets, depend on
    the request alone: neither the contents of the store nor the time
    play a part. *)
Theorem report_answer_independent now now' r body st st' :
  target r = POST_device_report body →
  (serve MAKE_API_KEY STALE_SECONDS now r st).1
    = (serve MAKE_API_KEY STALE_SECONDS now' r st').1.
Proof.
  destruct r as [[key|] t]; simpl; intros ->; [|done].
  destruct (decide (key = MAKE_API_KEY)) as [->|Hne].
  - rewrite !serve_authorised.
    by destruct (HealthPayload_validate body).
  - by rewrite !serve_wrong_key.
Qed.

End Validation.

(** ** Which requests get 401 and 404 *)

Section Statuses.

Variable MAKE_API_KEY : string.
Variable STALE_SECONDS : Z.

(** X17. A request to one of the routes is answered with
    [HTTPException(401, "Invalid API key")] exactly when it carries a key
    that differs from the configured one and is not a [POST] whose body
    fails to decode, and with
    [HTTPException(404, "No data yet for this device_id")] exactly when it
    carries the configured key and asks [GET /device/health] for an id
    the store has no entry for. *)
Theorem status_401_404_iff now r st :
  ((serve MAKE_API_KEY STALE_SECONDS now r st).1
     = inl (HTTPException 401 "Invalid API key") ↔
   (∃ key, x_api_key r = Some key ∧ key ≠ MAKE_API_KEY) ∧
   target r ≠ POST_device_report_undecodable) ∧
  ((serve MAKE_API_KEY STALE_SECONDS now r st).1
     = inl (HTTPException 404 "No data yet for this device_id") ↔
   x_api_key r = Some MAKE_API_KEY ∧
   ∃ id, target r = GET_device_health (Some id) ∧ st !! id = None).
Proof.
  destruct r as [[key|] t]; simpl.
  - destruct (decide (key = MAKE_API_KEY)) as [->|Hne].
    + rewrite serve_authorised. split.
      * split; [|by intros ((key & [= <-] & ?) & _)].
        destruct t as [|body| |[id|]|]; simpl; try done.
        -- by destruct (HealthPayload_validate body).
        -- rewrite get_health_run.
           destruct (st !! id) as [item|]; [|done].
           by destruct (Qlt_bool _ _).
      * destruct t as [|body| |[id|]|]; simpl.
        -- split; [done|]. by intros (_ & id & ? & _).
        -- split; [by destruct (HealthPayload_validate body)|].
           by intros (_ & id & ? & _).
        -- split; [done|]. by intros (_ & id & ? & _).
        -- rewrite get_health_run. destruct (st !! id) as [item|] eqn:Hid.
           ++ split; [by destruct (Qlt_bool _ _)|].
              intros (_ & id' & [= <-] & ?). congruence.
           ++ split; [by eauto|done].
        -- split; [done|]. by intros (_ & id & ? & _).
        -- split; [done|]. by intros (_ & id & ? & _).
    + destruct t;
        try (rewrite serve_wrong_key by done; simpl; split;
             [split; [by eauto|done]
             |split; [done|by intros ([= ?] & _)]]).
      rewrite serve_undecodable. simpl. split.
      * split; [done|]. by intros [_ ?].
      * split; [done|]. by intros ([= ?] & _).
  - rewrite serve_no_key. simpl. split.
    + split; [done|]. by intros ((key & ? & _) & _).
    + split; [done|]. by intros (? & _).
Qed.

End Statuses.

End Properties.

(** * The properties on worked requests *)

#[local] Existing Instance digit_strings.

(** C1 does not hold as stated: the report
    [{"device_id":"rpi-1","cpu":42.5,"ram":60}] leaves [status] out, and
    the record read back has status ["OK"], the default of the schema,
    not ["UNKNOWN"]. *)
Lemma omitted_status_reads_OK :
  let key := default_MAKE_API_KEY in
  let stored : LATEST := {[ "rpi-1" := {| data := rpi1_record; ts := 0 |} ]} in
  rpi1_report !! "status" = None ∧
  serve key default_STALE_SECONDS 0
    (with_key key (POST_device_report (JObject rpi1_report))) ∅
    = (inr (ack "rpi-1"), stored) ∧
  serve key default_STALE_SECONDS 10
    (with_key key (GET_device_health (Some "rpi-1"))) stored
    = (inr (JObject rpi1_record), stored) ∧
  rpi1_record !! "status" = Some (JString "OK") ∧
  rpi1_record !! "status" ≠ Some (JString "UNKNOWN").
Proof.
  repeat split; try (vm_compute; reflexivity).
  vm_compute. discriminate.
Qed.

Lemma report_then_get_health_witness :
  ∃ m id d,
    JObject rpi1_report = JObject m ∧
    m !! "device_id" = Some (JString id) ∧
    serve default_MAKE_API_KEY default_STALE_SECONDS 300
      (with_key default_MAKE_API_KEY (GET_device_health (Some id)))
      {[ "rpi-1" := {| data := rpi1_record; ts := 0 |} ]}
      = (inr (JObject d),
         {[ "rpi-1" := {| data := rpi1_record; ts := 0 |} ]}) ∧
    (∀ k x, k ∈ field_names → k ≠ "status" →
       d !! k = Some x ↔
       ∃ v, m !! k = Some v ∧ v ≠ JNull ∧ validates_to k v x) ∧
    (∀ k v, k ∈ field_names → k ≠ "status" →
       m !! k = Some v → v ≠ JNull → has_field_type k v = true →
       d !! k = Some v) ∧
    (∀ k, k ∉ field_names → d !! k = None) ∧
    d !! "status" = Some (match m !! "status" with
                          | None => JString "OK"
                          | Some JNull => JString "UNKNOWN"
                          | Some v => v
                          end).
Proof.
  apply (report_then_get_health default_MAKE_API_KEY default_STALE_SECONDS
           0 300 (post_report rpi1_report) (JObject rpi1_report) ∅
           (ack "rpi-1")).
  - reflexivity.
  - vm_compute. reflexivity.
  - vm_compute. discriminate.
Defined.



Lemma get_health_staleness_witness :
  serve default_MAKE_API_KEY default_STALE_SECONDS 300
    (with_key default_MAKE_API_KEY (GET_device_health (Some "rpi-1")))
    two_devices
    = (inr (JObject rpi1_record), two_devices) ∧
  serve default_MAKE_API_KEY default_STALE_SECONDS (601 # 2)
    (with_key default_MAKE_API_KEY (GET_device_health (Some "rpi-1")))
    two_devices
    = (inl (HTTPException 503 "Device data is stale (300s old)"),
       two_devices).
Proof.
  split.
  - apply (get_health_staleness default_MAKE_API_KEY default_STALE_SECONDS
             300 "rpi-1" {| data := rpi1_record; ts := 0 |} two_devices).
    + vm_compute. reflexivity.
    + vm_compute. reflexivity.
  - apply (get_health_staleness default_MAKE_API_KEY default_STALE_SECONDS
             (601 # 2) "rpi-1" {| data := rpi1_record; ts := 0 |}
             two_devices).
    + vm_compute. reflexivity.
    + vm_compute. reflexivity.
Defined.

Lemma report_twice_keeps_second_witness :
  let key := default_MAKE_API_KEY in
  let st2 : LATEST :=
    {[ "rpi-1" := {| data := rpi1_second_record; ts := 5 |} ]} in
  ∃ m2 d,
    JObject rpi1_second_report = JObject m2 ∧
    st2 !! "rpi-1" = Some {| data := d; ts := 5 |} ∧
    serve key default_STALE_SECONDS 5
      (with_key key (POST_device_report (JObject rpi1_second_report))) ∅
      = (inr (ack "rpi-1"), st2) ∧
    (∀ k x, k ≠ "status" → d !! k = Some x →
       ∃ v, m2 !! k = Some v ∧ v ≠ JNull ∧ validates_to k v x) ∧
    (∀ k v, k ∈ field_names → k ≠ "status" →
       m2 !! k = Some v → v ≠ JNull → has_field_type k v = true →
       d !! k = Some v) ∧
    d !! "status" = Some (match m2 !! "status" with
                          | None => JString "OK"
                          | Some JNull => JString "UNKNOWN"
                          | Some v => v
                          end) ∧
    size st2 = size ({[ "rpi-1" := {| data := rpi1_record; ts := 0 |} ]}
                       : LATEST) ∧
    (∀ id', id' ≠ "rpi-1" → st2 !! id' = (∅ : LATEST) !! id').
Proof.
  apply (report_twice_keeps_second default_MAKE_API_KEY
           default_STALE_SECONDS 0 5
           (with_key default_MAKE_API_KEY
              (POST_device_report (JObject rpi1_report)))
           (with_key default_MAKE_API_KEY
              (POST_device_report (JObject rpi1_second_report)))
           (JObject rpi1_report) (JObject rpi1_second_report)).
  - reflexivity.
  - reflexivity.
  - vm_compute. reflexivity.
  - vm_compute. reflexivity.
Defined.

(** C5 does not hold as stated: the report
    [{"device_id":"rpi-1","cpu":true,"health_score":"90"}] is accepted,
    and the record kept for it maps [cpu] to the float 1.0 and
    [health_score] to the integer 90, not to the boolean and the string
    that were submitted. *)
Lemma converted_values_are_stored :
  let stored : LATEST :=
    {[ "rpi-1" := {| data := lenient_record; ts := 0 |} ]} in
  serve default_MAKE_API_KEY default_STALE_SECONDS 0
    (post_report lenient_report) ∅ = (inr (ack "rpi-1"), stored) ∧
  lenient_report !! "cpu" = Some (JBool true) ∧
  lenient_record !! "cpu" = Some (JFloat 1) ∧
  lenient_report !! "health_score" = Some (JString "90") ∧
  lenient_record !! "health_score" = Some (JInt 90) ∧
  lenient_record !! "cpu" ≠ lenient_report !! "cpu" ∧
  lenient_record !! "health_score" ≠ lenient_report !! "health_score".
Proof.
  repeat split; try (vm_compute; reflexivity); vm_compute; discriminate.
Qed.

Lemma stored_record_keys_witness :
  ∃ m id item,
    JObject lenient_report = JObject m ∧ ack "rpi-1" = ack id ∧
    ({[ "rpi-1" := {| data := lenient_record; ts := 0 |} ]} : LATEST)
      !! id = Some item ∧
    (∀ k x, k ≠ "status" →
       data item !! k = Some x ↔
       k ∈ field_names ∧
       ∃ v, m !! k = Some v ∧ v ≠ JNull ∧ validates_to k v x) ∧
    (∀ k v, k ∈ field_names → k ≠ "status" →
       m !! k = Some v → v ≠ JNull → has_field_type k v = true →
       data item !! k = Some v) ∧
    (∀ k, k ∈ plain_optional_names →
       m !! k = None ∨ m !! k = Some JNull → data item !! k = None).
Proof.
  apply (stored_record_keys default_MAKE_API_KEY default_STALE_SECONDS 0
           (post_report lenient_report) (JObject lenient_report) ∅).
  - reflexivity.
  - vm_compute. reflexivity.
Defined.

Lemma all_health_unfiltered_witness :
  ∃ res,
    serve default_MAKE_API_KEY default_STALE_SECONDS 500
      (with_key default_MAKE_API_KEY GET_devices_health) two_devices
      = (inr (JObject res), two_devices) ∧
    res !! "rpi-1" = Some (JObject rpi1_record) ∧
    res !! "rpi-2" = Some (JObject rpi1_second_record) ∧
    http_status
      (serve default_MAKE_API_KEY default_STALE_SECONDS 500
         (with_key default_MAKE_API_KEY (GET_device_health (Some "rpi-1")))
         two_devices).1 = 503%Z ∧
    http_status
      (serve default_MAKE_API_KEY default_STALE_SECONDS 500
         (with_key default_MAKE_API_KEY (GET_device_health (Some "rpi-2")))
         two_devices).1 = 200%Z.
Proof.
  destruct (all_health_unfiltered default_MAKE_API_KEY default_STALE_SECONDS
              500 two_devices) as (res & Hrun & _ & Hall & Hstale).
  exists res. split; [exact Hrun|].
  split; [apply (Hall "rpi-1" {| data := rpi1_record; ts := 0 |});
          vm_compute; reflexivity|].
  split; [apply (Hall "rpi-2" {| data := rpi1_second_record; ts := 400 |});
          vm_compute; reflexivity|].
  split; [|vm_compute; reflexivity].
  apply (Hstale "rpi-1" {| data := rpi1_record; ts := 0 |});
    vm_compute; reflexivity.
Defined.

Lemma get_health_unknown_device_witness :
  two_devices !! "rpi-3" = None ∧
  serve default_MAKE_API_KEY default_STALE_SECONDS 0
    (with_key default_MAKE_API_KEY (GET_device_health (Some "rpi-3")))
    two_devices
    = (inl (HTTPException 404 "No data yet for this device_id"),
       two_devices).
Proof.
  split; [vm_compute; reflexivity|].
  apply (get_health_unknown_device default_MAKE_API_KEY
           default_STALE_SECONDS 0 "rpi-3" two_devices).
  vm_compute. reflexivity.
Defined.

(** C8 does not hold as stated: the report
    [{"device_id":"rpi-1","cpu":true,"health_score":"90"}] gives a
    boolean for [cpu] and a string for [health_score]; it is answered 200,
    not 422, and it is stored. *)
Lemma wrong_typed_values_are_accepted :
  let out :=
    serve default_MAKE_API_KEY default_STALE_SECONDS 0
      (post_report lenient_report) ∅ in
  lenient_report !! "cpu" = Some (JBool true) ∧
  lenient_report !! "health_score" = Some (JString "90") ∧
  out.1 = inr (ack "rpi-1") ∧
  http_status out.1 = 200%Z ∧
  http_status out.1 ≠ 422%Z ∧
  out.2 !! "rpi-1" = Some {| data := lenient_record; ts := 0 |} ∧
  out.2 ≠ ∅.
Proof.
  repeat split; try (vm_compute; reflexivity).
  - vm_compute. discriminate.
  - intros Hempty. apply (f_equal (.!! "rpi-1")) in Hempty.
    vm_compute in Hempty. discriminate Hempty.
Qed.

Lemma report_validation_witness :
  serve default_MAKE_API_KEY default_STALE_SECONDS 0
    (with_key default_MAKE_API_KEY
       (POST_device_report (JObject overloaded_report))) two_devices
    = (inl RequestValidationError, two_devices) ∧
  ¬ valid_payload (JObject overloaded_report).
Proof.
  destruct (report_validation default_MAKE_API_KEY default_STALE_SECONDS 0
              (JObject overloaded_report) two_devices)
    as [(_ & id & st' & Hrun) | (Hbad & Hrun & _)].
  - vm_compute in Hrun. discriminate Hrun.
  - split; [exact Hrun|exact Hbad].
Defined.

Lemma null_status_is_UNKNOWN_witness :
  rpi1_second_report !! "status" = Some JNull ∧
  ∃ id item,
    ack "rpi-1" = ack id ∧
    ({[ "rpi-1" := {| data := rpi1_second_record; ts := 0 |} ]} : LATEST)
      !! id = Some item ∧
    data item !! "status" = Some (JString "UNKNOWN").
Proof.
  split; [vm_compute; reflexivity|].
  destruct (null_status_is_UNKNOWN default_MAKE_API_KEY
              default_STALE_SECONDS 0 (post_report rpi1_second_report)
              rpi1_second_report ∅ (ack "rpi-1")
              {[ "rpi-1" := {| data := rpi1_second_record; ts := 0 |} ]})
    as (id & item & Hack & Hitem & Hnull & _).
  - reflexivity.
  - vm_compute. reflexivity.
  - exists id, item. split; [exact Hack|]. split; [exact Hitem|].
    apply Hnull. vm_compute. reflexivity.
Defined.

Lemma failure_leaves_store_witness :
  (serve default_MAKE_API_KEY default_STALE_SECONDS 0
     (post_report overloaded_report) two_devices).2 = two_devices.
Proof.
  apply (failure_leaves_store default_MAKE_API_KEY default_STALE_SECONDS 0
           (post_report overloaded_report) two_devices
           RequestValidationError).
  vm_compute. reflexivity.
Defined.


Lemma report_leaves_other_devices_witness :
  let st' : LATEST :=
    <[ "rpi-1" := {| data := rpi1_second_record; ts := 5 |} ]> two_devices in
  st' !! "rpi-2" = two_devices !! "rpi-2" ∧
  ∀ t,
    (serve default_MAKE_API_KEY default_STALE_SECONDS t
       (with_key default_MAKE_API_KEY (GET_device_health (Some "rpi-2")))
       st').1
    = (serve default_MAKE_API_KEY default_STALE_SECONDS t
         (with_key default_MAKE_API_KEY (GET_device_health (Some "rpi-2")))
         two_devices).1.
Proof.
  apply (report_leaves_other_devices default_MAKE_API_KEY
           default_STALE_SECONDS 5 (post_report rpi1_second_report)
           (JObject rpi1_second_report) two_devices "rpi-1").
  - reflexivity.
  - vm_compute. reflexivity.
  - discriminate.
Defined.

Lemma reports_commute_witness :
  ∃ st2 st21,
    serve default_MAKE_API_KEY default_STALE_SECONDS 0
      (post_report rpi2_report) ∅ = (inr (ack "rpi-2"), st2) ∧
    serve default_MAKE_API_KEY default_STALE_SECONDS 1
      (post_report rpi1_report) st2 = (inr (ack "rpi-1"), st21) ∧
    data <$> st21
      = ({[ "rpi-1" := rpi1_record; "rpi-2" := rpi2_record ]}
           : gmap string (gmap string json)) ∧
    ts <$> st21 !! "rpi-1" = Some 1%Q ∧ ts <$> st21 !! "rpi-2" = Some 0%Q.
Proof.
  destruct (reports_commute default_MAKE_API_KEY default_STALE_SECONDS 0 1
              (post_report rpi1_report) (post_report rpi2_report)
              (JObject rpi1_report) (JObject rpi2_report) "rpi-1" "rpi-2" ∅
              {[ "rpi-1" := {| data := rpi1_record; ts := 0 |} ]}
              (<[ "rpi-2" := {| data := rpi2_record; ts := 1 |} ]>
                 {[ "rpi-1" := {| data := rpi1_record; ts := 0 |} ]}))
    as (st2 & st21 & Hrun2 & Hrun1 & Hdata & _ & _ & _ & Hts1 & Hts2).
  - reflexivity.
  - reflexivity.
  - vm_compute. reflexivity.
  - vm_compute. reflexivity.
  - discriminate.
  - exists st2, st21. split; [exact Hrun2|]. split; [exact Hrun1|].
    split; [|split; [exact Hts1|exact Hts2]].
    rewrite Hdata. vm_compute. reflexivity.
Defined.

Lemma later_requests_leave_rpi1 t r e :
  (t, r) ∈ later_requests →
  report_of default_MAKE_API_KEY t r ≠ Some ("rpi-1", e).
Proof.
  unfold later_requests. rewrite !elem_of_cons, elem_of_nil.
  intros [[= -> ->]|[[= -> ->]|[]]]; vm_compute; discriminate.
Qed.

Lemma latest_report_wins_witness :
  serve_all default_MAKE_API_KEY default_STALE_SECONDS history ∅ !! "rpi-1"
    = Some {| data := rpi1_second_record; ts := 5 |} ∧
  ts {| data := rpi1_second_record; ts := 5 |} = 5%Q.
Proof.
  apply (latest_report_wins default_MAKE_API_KEY default_STALE_SECONDS
           [ (0%Q, post_report rpi1_report) ] 5
           (post_report rpi1_second_report) later_requests "rpi-1").
  - vm_compute. reflexivity.
  - apply later_requests_leave_rpi1.
Defined.

Lemma unreported_device_is_unknown_witness :
  serve_all default_MAKE_API_KEY default_STALE_SECONDS
    [ (0%Q, post_report rpi1_report) ] ∅ !! "rpi-2" = None ∧
  http_status
    (serve default_MAKE_API_KEY default_STALE_SECONDS 1
       (with_key default_MAKE_API_KEY (GET_device_health (Some "rpi-2")))
       (serve_all default_MAKE_API_KEY default_STALE_SECONDS
          [ (0%Q, post_report rpi1_report) ] ∅)).1 = 404%Z.
Proof.
  apply (unreported_device_is_unknown default_MAKE_API_KEY
           default_STALE_SECONDS [ (0%Q, post_report rpi1_report) ] "rpi-2" 1).
  intros t r e. rewrite elem_of_cons, elem_of_nil.
  intros [[= -> ->]|[]]. vm_compute. discriminate.
Defined.

Lemma served_records_well_formed_witness :
  ∃ d, JObject rpi1_second_record = JObject d ∧ record_ok "rpi-1" d.
Proof.
  apply (proj2 (served_records_well_formed default_MAKE_API_KEY
                  default_STALE_SECONDS history) 9%Q "rpi-1"
           (JObject rpi1_second_record)
           (serve_all default_MAKE_API_KEY default_STALE_SECONDS history ∅)).
  vm_compute. reflexivity.
Defined.

Lemma get_health_agrees_with_all_health_witness :
  ∃ res,
    serve default_MAKE_API_KEY default_STALE_SECONDS 100
      (with_key default_MAKE_API_KEY GET_devices_health) two_devices
      = (inr (JObject res), two_devices) ∧
    res !! "rpi-1" = Some (JObject rpi1_record).
Proof.
  destruct (get_health_agrees_with_all_health default_MAKE_API_KEY
              default_STALE_SECONDS 100 "rpi-1" two_devices)
    as (res & Hrun & _ & Hsame).
  exists res. split; [exact Hrun|].
  apply (Hsame (JObject rpi1_record) two_devices).
  vm_compute. reflexivity.
Defined.

Lemma staleness_is_monotone_witness :
  (400 <= 500)%Q ∧
  http_status
    (serve default_MAKE_API_KEY default_STALE_SECONDS 500
       (with_key default_MAKE_API_KEY (GET_device_health (Some "rpi-1")))
       two_devices).1 = 503%Z.
Proof.
  assert (400 <= 500)%Q as Hle by (vm_compute; discriminate).
  split; [exact Hle|].
  apply (proj1 (staleness_is_monotone default_MAKE_API_KEY
                  default_STALE_SECONDS 400 500 "rpi-1" two_devices Hle)).
  vm_compute. reflexivity.
Defined.

Lemma stale_age_reaches_threshold_witness :
  ∃ n,
    serve default_MAKE_API_KEY default_STALE_SECONDS (601 # 2)
      (with_key default_MAKE_API_KEY (GET_device_health (Some "rpi-1")))
      two_devices
      = (inl (HTTPException 503
                ("Device data is stale (" +:+ pretty n +:+ "s old)")),
         two_devices) ∧
    n = int ((601 # 2) - 0) ∧
    (default_STALE_SECONDS ≤ n)%Z ∧
    ((0 ≤ default_STALE_SECONDS)%Z →
     (inject_Z n <= (601 # 2) - 0)%Q ∧ ((601 # 2) - 0 < inject_Z (n + 1))%Q).
Proof.
  apply (stale_age_reaches_threshold default_MAKE_API_KEY
           default_STALE_SECONDS (601 # 2) "rpi-1"
           {| data := rpi1_record; ts := 0 |} two_devices).
  - vm_compute. reflexivity.
  - vm_compute. reflexivity.
Defined.


Lemma report_shows_in_all_health_witness :
  ∃ d,
    ({[ "rpi-1" := {| data := rpi1_record; ts := 0 |};
        "rpi-2" := {| data := rpi2_record; ts := 1 |} ]} : LATEST)
      !! "rpi-2" = Some {| data := d; ts := 1 |} ∧
    serve default_MAKE_API_KEY default_STALE_SECONDS 2
      (with_key default_MAKE_API_KEY GET_devices_health)
      {[ "rpi-1" := {| data := rpi1_record; ts := 0 |};
         "rpi-2" := {| data := rpi2_record; ts := 1 |} ]}
      = (inr (JObject (<[ "rpi-2" := JObject d ]>
                        {[ "rpi-1" := JObject rpi1_record ]})),
         {[ "rpi-1" := {| data := rpi1_record; ts := 0 |};
            "rpi-2" := {| data := rpi2_record; ts := 1 |} ]}).
Proof.
  apply (report_shows_in_all_health default_MAKE_API_KEY
           default_STALE_SECONDS 1 2 (post_report rpi2_report)
           (JObject rpi2_report)
           {[ "rpi-1" := {| data := rpi1_record; ts := 0 |} ]}).
  - reflexivity.
  - vm_compute. reflexivity.
  - vm_compute. reflexivity.
Defined.

Lemma unknown_keys_are_ignored_witness :
  HealthPayload_validate
    (JObject (<[ "firmware" := JString "1.2" ]> rpi1_report))
    = HealthPayload_validate (JObject rpi1_report).
Proof.
  apply (unknown_keys_are_ignored default_MAKE_API_KEY default_STALE_SECONDS
           rpi1_report "firmware" (JString "1.2")).
  unfold field_names. rewrite !not_elem_of_cons.
  repeat split; try discriminate. apply not_elem_of_nil.
Defined.

Lemma stored_record_resubmits_witness :
  ∃ item,
    ({[ "rpi-1" := {| data := lenient_record; ts := 0 |} ]} : LATEST)
      !! "rpi-1" = Some item ∧
    ∀ now' st2,
      serve default_MAKE_API_KEY default_STALE_SECONDS now'
        (with_key default_MAKE_API_KEY
           (POST_device_report (JObject (data item)))) st2
      = (inr (ack "rpi-1"),
         <[ "rpi-1" := {| data := data item; ts := now' |} ]> st2).
Proof.
  apply (stored_record_resubmits default_MAKE_API_KEY default_STALE_SECONDS
           0 (post_report lenient_report) (JObject lenient_report) ∅).
  - reflexivity.
  - vm_compute. reflexivity.
Defined.

Lemma report_answer_independent_witness :
  (serve default_MAKE_API_KEY default_STALE_SECONDS 0
     (post_report rpi1_report) ∅).1
  = (serve default_MAKE_API_KEY default_STALE_SECONDS 500
       (post_report rpi1_report) two_devices).1.
Proof.
  apply (report_answer_independent default_MAKE_API_KEY
           default_STALE_SECONDS 0 500 (post_report rpi1_report)
           (JObject rpi1_report) ∅ two_devices).
  reflexivity.
Defined.

Lemma status_401_404_iff_witness :
  (serve default_MAKE_API_KEY default_STALE_SECONDS 0
     (with_key "letmein" GET_root) two_devices).1
  = inl (HTTPException 401 "Invalid API key").
Proof.
  apply (status_401_404_iff default_MAKE_API_KEY default_STALE_SECONDS 0
           (with_key "letmein" GET_root) two_devices).
  split; [|discriminate].
  exists "letmein". split; [reflexivity|discriminate].
Defined.
